(** * Seat booking bot (src/bot.ts): inventory, orders and handlers

    A shallow embedding of the in-memory state of the cinema bot and of
    every handler that reads or writes it.  The three top-level arrays
    [shows], [seats] and [orders] form the [Store]; the per-chat session
    object is [PickSession].  A handler is a function from the session of
    the chat and the store to the new session, the new store and the
    messages it sends.

    Conventions.
    - JS numbers that hold ids, seat numbers and amounts are integers
      ([Z]); the callbacks carry them already parsed ([Number(match[i])]).
    - Strings are byte strings.  [split(" ")] and the test [/^\d{4}$/] act
      on ASCII bytes only, so they are modelled exactly; [String.trim] is a
      parameter of the development.
    - [find] followed by an assignment to a field changes the first match
      in place ([update_first]); [forEach] over seat ids is a left fold
      ([mark]); [findIndex] followed by [splice] is [remove_first].
    - [nano()] and [Date.now()] are inputs of the update that triggers the
      handler.  File writes ([writeJson]) and Telegram calls are assumed to
      succeed and leave the in-memory state alone.
    - Handlers run one update at a time (long polling of [bot.start()]).
    - The array the done handler stores in the order is the array of the
      session; no handler writes into an array in place (selections are
      replaced by fresh arrays), so the sharing is not observable. *)

From Stdlib Require Import ZArith List String Ascii Bool Lia.
From Stdlib Require Import Sorted Permutation.
Import ListNotations.
Local Open Scope Z_scope.
Local Open Scope list_scope.

(** ** Types *)

Inductive SeatStatus := SFree | SHold | SPaid.
Inductive PayStatus := PPending | PPaid.
Inductive Stage := idle | picking | await_payment.

Record Show := mkShow {
  sh_id : Z;
  sh_dateTime : string;
  sh_movie : string }.

Record Seat := mkSeat {
  s_id : Z;
  s_seatNo : Z;
  s_showId : Z;
  s_status : SeatStatus;
  s_orderId : option string }.

(** [o_showId] is [ctx.session.showId!]: the assertion is unchecked at run
    time, so the field holds whatever the session holds. *)
Record Order := mkOrder {
  o_id : string;
  o_tgUser : Z;
  o_showId : option Z;
  o_seatIds : list Z;
  o_amount : Z;
  o_payStatus : PayStatus;
  o_last4 : option string;
  o_created : Z }.

Record PickSession := mkSession {
  stage : Stage;
  ps_orderId : option string;
  ps_showId : option Z;
  ps_seatIds : option (list Z) }.

Record Store := mkStore {
  shows : list Show;
  seats : list Seat;
  orders : list Order }.

(** What a handler sends back.  Each constructor stands for one literal
    message of the source. *)
Inductive Out :=
| AnswerSilent                 (* ctx.answerCallbackQuery() *)
| AnswerTaken                  (* "Увы, место уже занято" *)
| AnswerCount (n : nat)        (* "Выбрано мест: n" *)
| AnswerChooseFirst            (* "Сначала выберите места." *)
| PhotoSeatPlan (showId : Z)
| PhotoQr (orderId : string) (amount : Z)
| ReplyAskLast4                (* "Введите последние 4 цифры платежа ..." *)
| ReplyOrderNotFound           (* "Заказ не найден" *)
| ReplyNeedLast4               (* "Нужно указать последние 4 цифры платежа." *)
| ReplyMarkedPaid (orderId : option string)
| ReplyFreed (orderId : option string)
| ReplyNoPending
| ReplyPending (n : nat)
| AlertOrderNotFound           (* answerCallbackQuery, show_alert *)
| AnswerCancelled (orderId : string)  (* answerCallbackQuery "Отменён <id>" *)
| AnswerPaid (orderId : string)       (* answerCallbackQuery "Оплачен <id>" *)
| EditCancelled (orderId : string)    (* editMessageText, cancelled *)
| EditPaid (orderId : string)         (* editMessageText, paid *)
| ReplyExactly4                (* "Нужно ввести ровно 4 цифры." *)
| ReplySessionOrderNotFound    (* "Не найден заказ." *)
| ReplyThanks
| ReplyGreeting
| ReplyShowList.

Definition SeatStatus_eqb (a b : SeatStatus) : bool :=
  match a, b with
  | SFree, SFree | SHold, SHold | SPaid, SPaid => true
  | _, _ => false
  end.

Definition PayStatus_eqb (a b : PayStatus) : bool :=
  match a, b with
  | PPending, PPending | PPaid, PPaid => true
  | _, _ => false
  end.

Definition Stage_eqb (a b : Stage) : bool :=
  match a, b with
  | idle, idle | picking, picking | await_payment, await_payment => true
  | _, _ => false
  end.

Definition initialSession : PickSession :=
  mkSession idle None None None.

Definition TICKET_PRICE : Z := 600.

(** ** Array helpers *)

Section ArrayHelpers.
Variable A : Type.

(** [const x = arr.find(p); if (x) mutate(x)]: the first match is
    changed in place, the others are not looked at. *)
Fixpoint update_first (p : A -> bool) (f : A -> A) (l : list A) : list A :=
  match l with
  | [] => []
  | x :: r => if p x then f x :: r else x :: update_first p f r
  end.

(** [i = arr.findIndex(p); arr.splice(i, 1)] when a match exists. *)
Fixpoint remove_first (p : A -> bool) (l : list A) : list A :=
  match l with
  | [] => []
  | x :: r => if p x then r else x :: remove_first p r
  end.
End ArrayHelpers.

Arguments update_first {A} p f l.
Arguments remove_first {A} p l.

(** ** Strings *)

(** [s.split(" ")] *)
Fixpoint split_space (s : string) : list string :=
  match s with
  | EmptyString => [EmptyString]
  | String c r =>
      if Ascii.eqb c " "%char then EmptyString :: split_space r
      else match split_space r with
           | [] => [String c EmptyString]
           | w :: ws => String c w :: ws
           end
  end.

Definition is_digit (c : ascii) : bool :=
  let n := nat_of_ascii c in (Nat.leb 48 n && Nat.leb n 57)%bool.

Fixpoint all_digits (s : string) : bool :=
  match s with
  | EmptyString => true
  | String c r => (is_digit c && all_digits r)%bool
  end.

(** [/^\d{4}$/.test(s)] *)
Definition four_digits (s : string) : bool :=
  (Nat.eqb (String.length s) 4 && all_digits s)%bool.

(** [!last4 || !/^\d{4}$/.test(last4)], negated: [last4] may be
    [undefined]. *)
Definition valid_last4 (x : option string) : bool :=
  match x with
  | Some s => four_digits s
  | None => false
  end.

(** [o.id === orderId] where [orderId] may be [undefined]. *)
Definition order_is (orderId : option string) (o : Order) : bool :=
  match orderId with
  | Some x => String.eqb (o_id o) x
  | None => false
  end.

Definition seat_is (id : Z) (s : Seat) : bool := Z.eqb (s_id s) id.

Definition find_seat (id : Z) (l : list Seat) : option Seat :=
  find (seat_is id) l.

Definition find_order (orderId : option string) (l : list Order)
  : option Order :=
  find (order_is orderId) l.

(** ** Seat and order mutations *)

(** Assignment to [seat.status] computed from the current status. *)
Definition touch (g : SeatStatus -> SeatStatus) (s : Seat) : Seat :=
  mkSeat (s_id s) (s_seatNo s) (s_showId s) (g (s_status s)) (s_orderId s).

(** [ids.forEach(id => { seat = seats.find(s => s.id === id);
                         if (seat) seat.status = g(seat.status) })] *)
Definition mark (g : SeatStatus -> SeatStatus) (ids : list Z)
  (l : list Seat) : list Seat :=
  fold_left (fun acc id => update_first (seat_is id) (touch g) acc) ids l.

Definition to_hold (_ : SeatStatus) : SeatStatus := SHold.
Definition to_paid (_ : SeatStatus) : SeatStatus := SPaid.
Definition to_free (_ : SeatStatus) : SeatStatus := SFree.

(** [if (seat && seat.status !== "paid") seat.status = "free"] *)
Definition free_unless_paid (st : SeatStatus) : SeatStatus :=
  match st with
  | SPaid => SPaid
  | _ => SFree
  end.

Definition set_payStatus (p : PayStatus) (o : Order) : Order :=
  mkOrder (o_id o) (o_tgUser o) (o_showId o) (o_seatIds o) (o_amount o)
          p (o_last4 o) (o_created o).

Definition set_last4 (x : option string) (o : Order) : Order :=
  mkOrder (o_id o) (o_tgUser o) (o_showId o) (o_seatIds o) (o_amount o)
          (o_payStatus o) x (o_created o).

Definition with_orders (st : Store) (l : list Order) : Store :=
  mkStore (shows st) (seats st) l.

(** Boot: 25 free seats per show, [id = show.id * 100 + n].  The source
    computes the id in double precision; the integer computed here is that
    id as long as it stays within 2^53 in size ([ids_exact] below), and the
    statements that depend on the value of an id carry that bound. *)
Definition seat_template (sh : Show) : list Seat :=
  map (fun n => mkSeat (sh_id sh * 100 + n) n (sh_id sh) SFree None)
      (map Z.of_nat (seq 1 25)).

Definition default_shows : list Show :=
  [ mkShow 1 "2025-08-09 21:00" "Dune: Part Two";
    mkShow 2 "2025-08-10 21:00" "Interstellar" ].

Definition boot (shs : list Show) : Store :=
  mkStore shs (flat_map seat_template shs) [].

(** ** Handlers *)

Record Result := mkResult {
  r_session : PickSession;
  r_store : Store;
  r_out : list Out }.

Definition selection (sess : PickSession) : list Z :=
  match ps_seatIds sess with
  | Some l => l
  | None => []
  end.

(** [ctx.session.orderId] used as a condition: [undefined] and the empty
    string are both falsy. *)
Definition truthy_id (x : option string) : bool :=
  match x with
  | Some EmptyString => false
  | Some _ => true
  | None => false
  end.

Section Handlers.

(** [process.env.ADMIN_IDS] once parsed. *)
Variable ADMINS : list Z.

(** [String.prototype.trim]. *)
Variable trim : string -> string.

Definition isAdmin (id : Z) : bool := existsb (Z.eqb id) ADMINS.

Definition cmd_start (sess : PickSession) (st : Store) : Result :=
  mkResult sess st [ReplyGreeting].

Definition cmd_shows (sess : PickSession) (st : Store) : Result :=
  mkResult sess st [ReplyShowList].

(** [bot.callbackQuery(/^show_(\d+)/)] *)
Definition cb_show (showId : Z) (sess : PickSession) (st : Store)
  : Result :=
  match find (fun s => Z.eqb (sh_id s) showId) (shows st) with
  | None => mkResult sess st [AnswerSilent]
  | Some _ =>
      mkResult (mkSession picking (ps_orderId sess) (Some showId) (Some []))
               st [PhotoSeatPlan showId]
  end.

(** The toggle of the seat handler. *)
Definition toggle (id : Z) (sel : list Z) : list Z :=
  if existsb (Z.eqb id) sel
  then filter (fun x => negb (Z.eqb x id)) sel
  else sel ++ [id].

(** [s => s.showId === showId && s.seatNo === seatNo] *)
Definition seat_at (showId seatNo : Z) (s : Seat) : bool :=
  (Z.eqb (s_showId s) showId && Z.eqb (s_seatNo s) seatNo)%bool.

(** [bot.callbackQuery(/^seat_(\d+)_(\d+)/)] *)
Definition cb_seat (showId seatNo : Z) (sess : PickSession) (st : Store)
  : Result :=
  if negb (Stage_eqb (stage sess) picking)
  then mkResult sess st [AnswerSilent]
  else
    match find (seat_at showId seatNo) (seats st) with
    | None => mkResult sess st [AnswerTaken]
    | Some seat =>
        if negb (SeatStatus_eqb (s_status seat) SFree)
        then mkResult sess st [AnswerTaken]
        else
          let sel' := toggle (s_id seat) (selection sess) in
          mkResult (mkSession (stage sess) (ps_orderId sess)
                              (ps_showId sess) (Some sel'))
                   st [AnswerCount (List.length sel')]
    end.

(** [bot.callbackQuery(/^done_(\d+)/)].  [orderId] is the value of
    [nano()], [now] the value of [Date.now()]; the show id of the
    callback data is matched by the pattern and not used. *)
Definition cb_done (from : Z) (orderId : string) (now : Z)
  (sess : PickSession) (st : Store) : Result :=
  if (negb (Stage_eqb (stage sess) picking)
      || Nat.eqb (List.length (selection sess)) 0)%bool
  then mkResult sess st [AnswerChooseFirst]
  else
    let seatIds := selection sess in
    let seats' := mark to_hold seatIds (seats st) in
    let amount := Z.of_nat (List.length seatIds) * TICKET_PRICE in
    let order := mkOrder orderId from (ps_showId sess) seatIds amount
                         PPending None now in
    mkResult (mkSession await_payment (Some orderId) (ps_showId sess)
                        (ps_seatIds sess))
             (mkStore (shows st) seats' (orders st ++ [order]))
             [PhotoQr orderId amount; AnswerSilent].

(** [bot.callbackQuery(/^paid_(.+)/)] *)
Definition cb_paid (orderId : string) (sess : PickSession) (st : Store)
  : Result :=
  match find_order (Some orderId) (orders st) with
  | None => mkResult sess st [AnswerSilent]
  | Some _ =>
      mkResult (mkSession await_payment (ps_orderId sess) (ps_showId sess)
                          (ps_seatIds sess))
               st [AnswerSilent; ReplyAskLast4]
  end.

(** [bot.command("paid")]: [text] is [ctx.message.text]. *)
Definition cmd_paid (from : Z) (text : string) (sess : PickSession)
  (st : Store) : Result :=
  if negb (isAdmin from) then mkResult sess st []
  else
    let parts := split_space text in
    let orderId := nth_error parts 1 in
    let last4 := nth_error parts 2 in
    match find_order orderId (orders st) with
    | None => mkResult sess st [ReplyOrderNotFound]
    | Some order =>
        let orders1 :=
          update_first (order_is orderId) (set_payStatus PPaid) (orders st) in
        if negb (valid_last4 last4)
        then mkResult sess (with_orders st orders1) [ReplyNeedLast4]
        else
          let orders2 :=
            update_first (order_is orderId) (set_last4 last4) orders1 in
          let seats' := mark to_paid (o_seatIds order) (seats st) in
          mkResult sess (mkStore (shows st) seats' orders2)
                   [ReplyMarkedPaid orderId]
    end.

(** [bot.command("free")] *)
Definition cmd_free (from : Z) (text : string) (sess : PickSession)
  (st : Store) : Result :=
  if negb (isAdmin from) then mkResult sess st []
  else
    let orderId := nth_error (split_space text) 1 in
    match find_order orderId (orders st) with
    | None => mkResult sess st [ReplyOrderNotFound]
    | Some order =>
        let seats' := mark to_free (o_seatIds order) (seats st) in
        let orders' := remove_first (order_is orderId) (orders st) in
        mkResult sess (mkStore (shows st) seats' orders')
                 [ReplyFreed orderId]
    end.

(** [bot.command("orders")]: read only.  The pending orders are listed in
    messages of eight; [n] is the number of orders listed. *)
Definition cmd_orders (from : Z) (sess : PickSession) (st : Store)
  : Result :=
  if negb (isAdmin from) then mkResult sess st []
  else
    let pend :=
      filter (fun o => PayStatus_eqb (o_payStatus o) PPending) (orders st) in
    let shown := rev (skipn (List.length pend - 30)%nat pend) in
    match shown with
    | [] => mkResult sess st [ReplyNoPending]
    | _ => mkResult sess st [ReplyPending (List.length shown)]
    end.

(** [bot.callbackQuery(/^admin_cancel:(.+)$/)] *)
Definition cb_admin_cancel (from : Z) (orderId : string)
  (sess : PickSession) (st : Store) : Result :=
  if negb (isAdmin from) then mkResult sess st []
  else
    match find_order (Some orderId) (orders st) with
    | None => mkResult sess st [AlertOrderNotFound]
    | Some order =>
        let seats' := mark free_unless_paid (o_seatIds order) (seats st) in
        let orders' := remove_first (order_is (Some orderId)) (orders st) in
        mkResult sess (mkStore (shows st) seats' orders')
                 [AnswerCancelled orderId; EditCancelled orderId]
    end.

(** [bot.callbackQuery(/^admin_paid:(.+)$/)] *)
Definition cb_admin_paid (from : Z) (orderId : string)
  (sess : PickSession) (st : Store) : Result :=
  if negb (isAdmin from) then mkResult sess st []
  else
    match find_order (Some orderId) (orders st) with
    | None => mkResult sess st [AlertOrderNotFound]
    | Some order =>
        let orders' :=
          update_first (order_is (Some orderId)) (set_payStatus PPaid)
                       (orders st) in
        let seats' := mark to_paid (o_seatIds order) (seats st) in
        mkResult sess (mkStore (shows st) seats' orders')
                 [AnswerPaid orderId; EditPaid orderId]
    end.

(** [bot.on("message:text")] *)
Definition on_text (text : string) (sess : PickSession) (st : Store)
  : Result :=
  if (negb (Stage_eqb (stage sess) await_payment)
      || negb (truthy_id (ps_orderId sess)))%bool
  then mkResult sess st []
  else
    let last4 := trim text in
    if negb (four_digits last4) then mkResult sess st [ReplyExactly4]
    else
      match find_order (ps_orderId sess) (orders st) with
      | None => mkResult sess st [ReplySessionOrderNotFound]
      | Some order =>
          let orders1 :=
            update_first (order_is (ps_orderId sess))
                         (set_last4 (Some last4)) (orders st) in
          let orders2 :=
            update_first (order_is (ps_orderId sess))
                         (set_payStatus PPaid) orders1 in
          let seats' := mark to_paid (o_seatIds order) (seats st) in
          mkResult initialSession (mkStore (shows st) seats' orders2)
                   [ReplyThanks]
      end.

(** ** Updates and the whole bot *)

Inductive Update :=
| CmdStart
| CmdShows
| CbShow (showId : Z)
| CbSeat (showId seatNo : Z)
| CbDone (showId : Z) (nano : string) (now : Z)
| CbPaid (orderId : string)
| CmdPaid (text : string)
| CmdFree (text : string)
| CmdOrders
| CbAdminCancel (orderId : string)
| CbAdminPaid (orderId : string)
| MsgText (text : string).

Definition handle (u : Update) (from : Z) : PickSession -> Store -> Result :=
  match u with
  | CmdStart => cmd_start
  | CmdShows => cmd_shows
  | CbShow showId => cb_show showId
  | CbSeat showId seatNo => cb_seat showId seatNo
  | CbDone _ nano now => cb_done from nano now
  | CbPaid orderId => cb_paid orderId
  | CmdPaid text => cmd_paid from text
  | CmdFree text => cmd_free from text
  | CmdOrders => cmd_orders from
  | CbAdminCancel orderId => cb_admin_cancel from orderId
  | CbAdminPaid orderId => cb_admin_paid from orderId
  | MsgText text => on_text text
  end.

(** The session middleware keeps one [PickSession] per chat, created by
    [initialSession] on first use. *)
Record World := mkWorld {
  w_store : Store;
  w_sessions : list (Z * PickSession) }.

Fixpoint get_session (chat : Z) (l : list (Z * PickSession)) : PickSession :=
  match l with
  | [] => initialSession
  | (c, s) :: r => if Z.eqb c chat then s else get_session chat r
  end.

Record Event := mkEvent {
  e_chat : Z;
  e_from : Z;
  e_update : Update }.

Definition step (w : World) (e : Event) : World :=
  let r := handle (e_update e) (e_from e)
                  (get_session (e_chat e) (w_sessions w)) (w_store w) in
  mkWorld (r_store r) ((e_chat e, r_session r) :: w_sessions w).

Definition run (w : World) (trace : list Event) : World :=
  fold_left step trace w.

Definition boot_world (shs : list Show) : World :=
  mkWorld (boot shs) [].

(** ** Hold expiry *)

(** Modelled from the spec: the test of the sweep, "[payStatus==Pending]
    and [createdAt < now - ttl]" (section 4.3); bot.ts has no such test. *)
Definition stale (now ttl : Z) (o : Order) : bool :=
  (PayStatus_eqb (o_payStatus o) PPending
   && Z.ltb (o_created o) (now - ttl))%bool.

(** The seat release of the cancel button, for the seats of [o]. *)
Definition release_seats (l : list Seat) (o : Order) : list Seat :=
  mark free_unless_paid (o_seatIds o) l.

(** Modelled from the spec: [expireStaleHolds(now, ttl) -> count] (section
    4.3) is not in bot.ts, which has no time-driven handler.  It "sweeps all
    orders with [payStatus==Pending] and [createdAt < now - ttl]; for each,
    performs the same release as [cancel]": the seats of each stale order
    get the release of the cancel button, the stale orders leave [orders],
    and the result carries their number. *)
Definition expireStaleHolds (now ttl : Z) (st : Store) : Store * nat :=
  let gone := filter (stale now ttl) (orders st) in
  (mkStore (shows st)
           (fold_left release_seats gone (seats st))
           (filter (fun o => negb (stale now ttl o)) (orders st)),
   List.length gone).

(** ** Predicates used in the statements *)

(** An assignment that, applied twice, is the assignment applied once. *)
Definition idempotent (g : SeatStatus -> SeatStatus) : Prop :=
  forall x, g (g x) = g x.

(** What one marked array can differ from the original in. *)
Definition changed_by (g : SeatStatus -> SeatStatus) (ids : list Z)
  (s s' : Seat) : Prop :=
  s' = s \/ (In (s_id s) ids /\ s' = touch g s).

(** The order leaves [orders]: [splice] at the first index with the id. *)
Definition removed_from (orderId : option string) (o : Order)
  (before after : list Order) : Prop :=
  exists pre post,
    before = pre ++ o :: post /\
    (forall y, In y pre -> order_is orderId y = false) /\
    after = pre ++ post.

(** The order with this id is paid with proof [p], and so is every seat it
    refers to. *)
Definition confirmed_with (orderId : option string) (p : string)
  (st : Store) : Prop :=
  exists o,
    find_order orderId (orders st) = Some o /\
    o_payStatus o = PPaid /\
    o_last4 o = Some p /\
    forall id s, In id (o_seatIds o) -> find_seat id (seats st) = Some s ->
                 s_status s = SPaid.

(** The three updates that confirm a payment. *)
Definition is_confirm (u : Update) : bool :=
  match u with
  | CmdPaid _ | CbAdminPaid _ | MsgText _ => true
  | _ => false
  end.






(** ** Sample data *)

Definition demo_admins : list Z := [900].

(** The sample texts carry no white space at their ends. *)
Definition no_trim (s : string) : string := s.

Definition ev (who : Z) (u : Update) : Event := mkEvent who who u.

(** Requester 1 holds seat 1 of show 1. *)
Definition trace_hold : list Event :=
  [ ev 1 (CbShow 1); ev 1 (CbSeat 1 1); ev 1 (CbDone 1 "AAAAAA" 1000) ].

(** Requesters 1 and 2 both select seat 1 of show 1 while it is free;
    requester 1 finalizes and pays. *)
Definition trace_two_pickers : list Event :=
  [ ev 1 (CbShow 1); ev 1 (CbSeat 1 1);
    ev 2 (CbShow 1); ev 2 (CbSeat 1 1);
    ev 1 (CbDone 1 "AAAAAA" 1000); ev 1 (MsgText "1234") ].

(** Requester 2 finalizes as well; the operator then releases the first
    order. *)
Definition trace_release_first : list Event :=
  trace_two_pickers ++
  [ ev 2 (CbDone 1 "BBBBBB" 2000); ev 900 (CmdFree "/free AAAAAA") ].


Definition demo_order : Order :=
  mkOrder "AAAAAA" 1 (Some 1) [101; 102] 1200 PPending None 1000.

Definition demo_store : Store :=
  mkStore default_shows
          [ mkSeat 101 1 1 SPaid None;
            mkSeat 102 2 1 SHold None;
            mkSeat 103 3 1 SFree None ]
          [ demo_order ].

Definition demo_picking (sel : list Z) : PickSession :=
  mkSession picking None (Some 1) (Some sel).

(** ** Command texts *)

(** The text has no space: [split(" ")] leaves it in one piece. *)
Fixpoint no_space (s : string) : bool :=
  match s with
  | EmptyString => true
  | String c r => (negb (Ascii.eqb c " "%char) && no_space r)%bool
  end.

(** [parts.join(" ")] *)
Definition join_space (parts : list string) : string :=
  String.concat " " parts.

(** ** Exact seat ids *)

(** Every id [show.id * 100 + n], [n] from 1 to 25, is an integer that a
    double holds exactly, so that the product and the sum of the boot loop
    are computed without rounding. *)
Definition ids_exact (shs : list Show) : Prop :=
  Forall (fun sh => Z.abs (sh_id sh) * 100 + 25 <= 2 ^ 53) shs.

(** ** Seat keyboard of the show handler *)

(** A seat button: its label ([None] is the cross shown for a seat that is
    not free) and the show and seat number of its callback data
    [seat_<showId>_<seatNo>]. *)
Record Button := mkButton {
  b_label : option Z;
  b_showId : Z;
  b_seatNo : Z }.

(** [seat = showSeats.find(s => s.seatNo === seatNo);
     label = seat?.status === "free" ? `${seatNo}` : cross] *)
Definition seat_label (showSeats : list Seat) (seatNo : Z) : option Z :=
  match find (fun s => Z.eqb (s_seatNo s) seatNo) showSeats with
  | Some seat =>
      if SeatStatus_eqb (s_status seat) SFree then Some seatNo else None
  | None => None
  end.

Definition keyboard_row (showId : Z) (showSeats : list Seat) (row : Z)
  : list Button :=
  map (fun col =>
         let seatNo := row * 5 + col in
         mkButton (seat_label showSeats seatNo) showId seatNo)
      [1; 2; 3; 4; 5].

(** The 5 x 5 grid built by the show handler; the done button that follows
    the grid is not a seat button and is left out. *)
Definition seat_keyboard (showId : Z) (st : Store) : list (list Button) :=
  let showSeats := filter (fun s => Z.eqb (s_showId s) showId) (seats st) in
  map (keyboard_row showId showSeats) [0; 1; 2; 3; 4].

(** ** Kinds of updates *)

(** The updates guarded by [isAdmin]. *)
Definition is_operator_update (u : Update) : bool :=
  match u with
  | CmdPaid _ | CmdFree _ | CmdOrders | CbAdminCancel _ | CbAdminPaid _ => true
  | _ => false
  end.

(** The updates that remove an order. *)
Definition is_removal (u : Update) : bool :=
  match u with
  | CmdFree _ | CbAdminCancel _ => true
  | _ => false
  end.

(** The updates of the handlers that only read the store. *)
Definition is_browsing (u : Update) : bool :=
  match u with
  | CmdStart | CmdShows | CbShow _ | CbSeat _ _ | CbPaid _ | CmdOrders => true
  | _ => false
  end.

(** What identifies a seat: everything but its status. *)
Definition seat_shape (s : Seat) : Z * Z * Z * option string :=
  (s_id s, s_seatNo s, s_showId s, s_orderId s).

(** [o'] is [o] up to the payment fields, and is paid if [o] is. *)
Definition same_order_paid_later (o o' : Order) : Prop :=
  o_id o' = o_id o /\ o_tgUser o' = o_tgUser o /\ o_showId o' = o_showId o /\
  o_seatIds o' = o_seatIds o /\ o_amount o' = o_amount o /\
  o_created o' = o_created o /\
  (o_payStatus o = PPaid -> o_payStatus o' = PPaid).

(** ** Marking, seat by seat *)

Definition memZ (x : Z) (l : list Z) : bool := existsb (Z.eqb x) l.

(** [mark] read along the seat array: a seat is written when its id is in
    [ids] and no earlier seat has the same id ([seen] holds the ids of the
    earlier seats). *)
Fixpoint mark_map (g : SeatStatus -> SeatStatus) (ids seen : list Z)
  (l : list Seat) : list Seat :=
  match l with
  | [] => []
  | s :: r =>
      (if (memZ (s_id s) ids && negb (memZ (s_id s) seen))%bool
       then touch g s else s)
      :: mark_map g ids (s_id s :: seen) r
  end.

(** ** The list of pending orders *)

(** [orders.filter(o => o.payStatus === "pending").slice(-30).reverse()] *)
Definition pending_orders (st : Store) : list Order :=
  let pend :=
    filter (fun o => PayStatus_eqb (o_payStatus o) PPending) (orders st) in
  rev (skipn (List.length pend - 30) pend).

(** [for (i = 0; i < pending.length; i += 8) pending.slice(i, i + 8)]: one
    message per chunk; the [k]-th pass has [i = 8 * k]. *)
Definition order_chunks (pending : list Order) : list (list Order) :=
  map (fun k => firstn 8 (skipn (8 * k) pending))
      (seq 0 ((List.length pending + 7) / 8)).

(** [nums.sort((a, b) => a - b)]: numbers in ascending order.  The result
    of sorting numbers is the same for every sorting algorithm; insertion
    is used here. *)
Fixpoint insert_asc (x : Z) (l : list Z) : list Z :=
  match l with
  | [] => [x]
  | y :: r => if Z.leb x y then x :: l else y :: insert_asc x r
  end.

Definition sort_asc (l : list Z) : list Z := fold_right insert_asc [] l.

(** [seatsLabel]: the seat numbers of the seats of the order that exist,
    sorted; the source joins them with ", ". *)
Definition seatsLabel (l : list Seat) (o : Order) : list Z :=
  sort_asc
    (flat_map (fun id => match find_seat id l with
                         | Some s => [s_seatNo s]
                         | None => []
                         end)
              (o_seatIds o)).

(** ** Effects of an update on the store *)

(** A write on an order that only touches its payment fields: the order
    becomes paid, and its [last4] stays or becomes four digits. *)
Definition payment_write (f : Order -> Order) : Prop :=
  forall o,
    o_id (f o) = o_id o /\ o_tgUser (f o) = o_tgUser o /\
    o_showId (f o) = o_showId o /\ o_seatIds (f o) = o_seatIds o /\
    o_amount (f o) = o_amount o /\ o_created (f o) = o_created o /\
    o_payStatus (f o) = PPaid /\
    (o_last4 (f o) = o_last4 o \/
     exists p, o_last4 (f o) = Some p /\ four_digits p = true).

(** The four things a handler can do to the store: nothing; hold the
    selection and push an order; write a payment on the first order with an
    id, marking its seats paid or (when the proof is refused after the
    write) leaving the seats; release the seats of the first order with an
    id and splice the order out. *)
Inductive Effect (sess : PickSession) (from : Z) (st : Store)
  : Store -> Prop :=
| Eff_none : Effect sess from st st
| Eff_hold (nano : string) (now : Z) :
    stage sess = picking ->
    selection sess <> [] ->
    Effect sess from st
      (mkStore (shows st)
               (mark to_hold (selection sess) (seats st))
               (orders st ++
                [mkOrder nano from (ps_showId sess) (selection sess)
                         (Z.of_nat (List.length (selection sess)) * 600)
                         PPending None now]))
| Eff_pay (orderId : option string) (o : Order) (f : Order -> Order)
    (ids : list Z) :
    find_order orderId (orders st) = Some o ->
    payment_write f ->
    ids = o_seatIds o \/ ids = [] ->
    Effect sess from st
      (mkStore (shows st)
               (mark to_paid ids (seats st))
               (update_first (order_is orderId) f (orders st)))
| Eff_release (orderId : option string) (o : Order)
    (g : SeatStatus -> SeatStatus) :
    find_order orderId (orders st) = Some o ->
    g = to_free \/ g = free_unless_paid ->
    Effect sess from st
      (mkStore (shows st)
               (mark g (o_seatIds o) (seats st))
               (remove_first (order_is orderId) (orders st))).

(** ** Well-formed sessions, orders and stores *)

Definition session_wf (st : Store) (sess : PickSession) : Prop :=
  NoDup (selection sess)
  /\ (forall id, In id (selection sess) ->
                 exists s, In s (seats st) /\ s_id s = id)
  /\ (stage sess = picking ->
      exists sh, In sh (shows st) /\ ps_showId sess = Some (sh_id sh)).

Definition order_wf (st : Store) (o : Order) : Prop :=
  o_seatIds o <> []
  /\ NoDup (o_seatIds o)
  /\ o_amount o = Z.of_nat (List.length (o_seatIds o)) * 600
  /\ (forall id, In id (o_seatIds o) ->
                 exists s, In s (seats st) /\ s_id s = id)
  /\ (exists sh, In sh (shows st) /\ o_showId o = Some (sh_id sh))
  /\ (forall p, o_last4 o = Some p ->
                o_payStatus o = PPaid /\ four_digits p = true).

(** A seat whose id already occurred earlier in the array is free: [find]
    never reaches it, so no handler ever writes it. *)
Fixpoint later_seats_free (seen : list Z) (l : list Seat) : Prop :=
  match l with
  | [] => True
  | s :: r =>
      (memZ (s_id s) seen = true -> s_status s = SFree)
      /\ later_seats_free (s_id s :: seen) r
  end.

(** The seat is listed by an order of the list. *)
Definition listed (l : list Order) (s : Seat) : Prop :=
  exists o, In o l /\ In (s_id s) (o_seatIds o).

Definition holds_listed (st : Store) : Prop :=
  Forall (fun s => s_status s = SHold -> listed (orders st) s) (seats st).

Definition world_wf (w : World) : Prop :=
  (forall chat, session_wf (w_store w) (get_session chat (w_sessions w)))
  /\ (forall o, In o (orders (w_store w)) -> order_wf (w_store w) o)
  /\ later_seats_free [] (seats (w_store w))
  /\ holds_listed (w_store w).

(** ** Lemmas on the array helpers *)

Lemma update_first_length (A : Type) (p : A -> bool) f (l : list A) :
  List.length (update_first p f l) = List.length l.
Proof.
  induction l as [|x r IH]; simpl; [reflexivity|].
  destruct (p x); simpl; congruence.
Qed.

Lemma find_update_first_same (A : Type) (p : A -> bool) f (l : list A) :
  (forall x, p (f x) = p x) ->
  find p (update_first p f l) = option_map f (find p l).
Proof.
  intros Hp. induction l as [|x r IH]; simpl; [reflexivity|].
  destruct (p x) eqn:E; simpl.
  - rewrite Hp, E. reflexivity.
  - rewrite E. exact IH.
Qed.

Lemma find_update_first_other (A : Type) (p q : A -> bool) f (l : list A) :
  (forall x, q (f x) = q x) ->
  (forall x, p x = true -> q x = false) ->
  find q (update_first p f l) = find q l.
Proof.
  intros Hq Hpq. induction l as [|x r IH]; simpl; [reflexivity|].
  destruct (p x) eqn:E; simpl.
  - rewrite Hq, (Hpq _ E). reflexivity.
  - rewrite IH. reflexivity.
Qed.

Lemma update_first_fixed (A : Type) (p : A -> bool) f (l : list A) :
  (forall x, find p l = Some x -> f x = x) ->
  update_first p f l = l.
Proof.
  induction l as [|x r IH]; simpl; intros H; [reflexivity|].
  destruct (p x) eqn:E.
  - rewrite (H x eq_refl). reflexivity.
  - rewrite (IH H). reflexivity.
Qed.

Lemma update_first_none (A : Type) (p : A -> bool) f (l : list A) :
  find p l = None -> update_first p f l = l.
Proof.
  intros H. apply update_first_fixed. intros x Hx. congruence.
Qed.

Lemma update_first_Forall2 (A : Type) (p : A -> bool) f (l : list A) :
  Forall2 (fun x y => y = x \/ (p x = true /\ y = f x)) l (update_first p f l).
Proof.
  induction l as [|x r IH]; simpl; [constructor|].
  destruct (p x) eqn:E.
  - constructor; [right; split; [exact E | reflexivity]|].
    clear. induction r; constructor; auto.
  - constructor; [left; reflexivity | exact IH].
Qed.

Lemma remove_first_split (A : Type) (p : A -> bool) (l : list A) x :
  find p l = Some x ->
  exists pre post,
    l = pre ++ x :: post /\
    (forall y, In y pre -> p y = false) /\
    remove_first p l = pre ++ post.
Proof.
  induction l as [|a r IH]; simpl; [discriminate|].
  destruct (p a) eqn:E; intros H.
  - injection H as <-. exists [], r. simpl. repeat split. intros y [].
  - destruct (IH H) as (pre & post & -> & Hpre & Hrm).
    exists (a :: pre), post. simpl. rewrite Hrm. repeat split.
    intros y [<-|Hy]; [exact E | exact (Hpre y Hy)].
Qed.

Lemma remove_first_none (A : Type) (p : A -> bool) (l : list A) :
  find p l = None -> remove_first p l = l.
Proof.
  induction l as [|a r IH]; simpl; [reflexivity|].
  destruct (p a); [discriminate|]. intros H. rewrite (IH H). reflexivity.
Qed.

(** ** Lemmas on seat marking *)

Lemma to_hold_idem : idempotent to_hold.
Proof. intros x. reflexivity. Qed.
Lemma to_paid_idem : idempotent to_paid.
Proof. intros x. reflexivity. Qed.
Lemma to_free_idem : idempotent to_free.
Proof. intros x. reflexivity. Qed.
Lemma free_unless_paid_idem : idempotent free_unless_paid.
Proof. intros []; reflexivity. Qed.

Lemma touch_fixed g s : g (s_status s) = s_status s -> touch g s = s.
Proof. destruct s; unfold touch; simpl; intros ->; reflexivity. Qed.

Lemma touch_touch g s : idempotent g -> touch g (touch g s) = touch g s.
Proof. intros Hg. unfold touch; simpl. rewrite Hg. reflexivity. Qed.

Lemma mark_cons g id ids l :
  mark g (id :: ids) l = mark g ids (update_first (seat_is id) (touch g) l).
Proof. reflexivity. Qed.

Lemma mark_length g ids l : List.length (mark g ids l) = List.length l.
Proof.
  revert l. induction ids as [|id ids IH]; intros l; [reflexivity|].
  rewrite mark_cons, IH. apply update_first_length.
Qed.

Lemma find_seat_mark_one_same g id l :
  find_seat id (update_first (seat_is id) (touch g) l)
  = option_map (touch g) (find_seat id l).
Proof. apply find_update_first_same. reflexivity. Qed.

Lemma find_seat_mark_one_other g id id' l :
  id <> id' ->
  find_seat id' (update_first (seat_is id) (touch g) l) = find_seat id' l.
Proof.
  intros Hne. apply find_update_first_other; [reflexivity|].
  unfold seat_is. intros x Hx. apply Z.eqb_eq in Hx. apply Z.eqb_neq. congruence.
Qed.

Lemma find_seat_mark_out g ids id l :
  ~ In id ids -> find_seat id (mark g ids l) = find_seat id l.
Proof.
  revert l. induction ids as [|a ids IH]; intros l Hn; [reflexivity|].
  rewrite mark_cons, IH by (intros H; apply Hn; right; exact H).
  apply find_seat_mark_one_other. intros ->. apply Hn. left. reflexivity.
Qed.

Lemma find_seat_mark_in g ids id l :
  idempotent g -> In id ids ->
  find_seat id (mark g ids l) = option_map (touch g) (find_seat id l).
Proof.
  intros Hg. revert l. induction ids as [|a ids IH]; intros l Hin; [destruct Hin|].
  rewrite mark_cons.
  destruct (Z.eq_dec a id) as [->|Hne].
  - destruct (in_dec Z.eq_dec id ids) as [Hi|Hi].
    + rewrite (IH _ Hi), find_seat_mark_one_same.
      destruct (find_seat id l); simpl; [|reflexivity].
      rewrite touch_touch by exact Hg. reflexivity.
    + rewrite find_seat_mark_out by exact Hi. apply find_seat_mark_one_same.
  - destruct Hin as [->|Hin]; [congruence|].
    rewrite (IH _ Hin), find_seat_mark_one_other by exact Hne. reflexivity.
Qed.

Lemma mark_frame g ids l :
  idempotent g -> Forall2 (changed_by g ids) l (mark g ids l).
Proof.
  intros Hg. revert l. induction ids as [|a ids IH]; intros l.
  - simpl. induction l; constructor; [left; reflexivity | assumption].
  - rewrite mark_cons.
    pose proof (update_first_Forall2 Seat (seat_is a) (touch g) l) as H1.
    specialize (IH (update_first (seat_is a) (touch g) l)).
    revert H1 IH. generalize (mark g ids (update_first (seat_is a) (touch g) l)).
    generalize (update_first (seat_is a) (touch g) l).
    intros l1 l2 H1. revert l2.
    induction H1 as [|x y l l1 Hxy _ IH1]; intros l2 H2; inversion H2; subst;
      constructor; [|apply IH1; assumption].
    match goal with H : changed_by g ids y _ |- _ => destruct H as [->|[Hin ->]] end.
    + destruct Hxy as [->|[Hp ->]]; [left; reflexivity|].
      right. split; [left; symmetry; apply Z.eqb_eq; exact Hp | reflexivity].
    + destruct Hxy as [->|[Hp ->]].
      * right. split; [right; exact Hin | reflexivity].
      * right. split; [left; symmetry; apply Z.eqb_eq; exact Hp|].
        apply touch_touch. exact Hg.
Qed.

Lemma mark_fixed g ids l :
  (forall id s, In id ids -> find_seat id l = Some s ->
                g (s_status s) = s_status s) ->
  mark g ids l = l.
Proof.
  induction ids as [|a ids IH]; intros H; [reflexivity|].
  rewrite mark_cons.
  assert (E : update_first (seat_is a) (touch g) l = l).
  { apply update_first_fixed. intros x Hx. apply touch_fixed.
    apply (H a x); [left; reflexivity | exact Hx]. }
  rewrite E. apply IH. intros id s Hin. apply H. right. exact Hin.
Qed.

Lemma mark_orderId g ids l :
  map s_orderId (mark g ids l) = map s_orderId l.
Proof.
  revert l. induction ids as [|a ids IH]; intros l; [reflexivity|].
  rewrite mark_cons, IH. clear.
  induction l as [|x r IH]; simpl; [reflexivity|].
  destruct (seat_is a x); simpl; congruence.
Qed.

(** ** /free: operator release *)

(** C8. [/free <orderId>] sent by an operator: when no order has the id the
    reply is "not found" and neither the store nor the session changes;
    otherwise every seat the order refers to (the seat [find] returns for
    the id) gets status free whatever its status was, no other seat
    changes, and the order is spliced out of [orders]. *)
Theorem free_command_force_release from text sess st :
  isAdmin from = true ->
  let orderId := nth_error (split_space text) 1 in
  let r := cmd_free from text sess st in
  match find_order orderId (orders st) with
  | None => r = mkResult sess st [ReplyOrderNotFound]
  | Some o =>
      (forall id s, In id (o_seatIds o) -> find_seat id (seats st) = Some s ->
         find_seat id (seats (r_store r))
         = Some (mkSeat (s_id s) (s_seatNo s) (s_showId s) SFree (s_orderId s)))
      /\ Forall2 (changed_by to_free (o_seatIds o)) (seats st) (seats (r_store r))
      /\ removed_from orderId o (orders st) (orders (r_store r))
      /\ shows (r_store r) = shows st
      /\ r_session r = sess
      /\ r_out r = [ReplyFreed orderId]
  end.
Proof.
  intros Hadm orderId r. subst r. unfold cmd_free. rewrite Hadm.
  cbn [negb]. fold orderId.
  destruct (find_order orderId (orders st)) as [o|] eqn:Ho.
  - cbn [r_store r_session r_out seats orders shows]. repeat split.
    + intros id s Hin Hs.
      rewrite find_seat_mark_in by (exact to_free_idem || exact Hin).
      rewrite Hs. reflexivity.
    + apply mark_frame. exact to_free_idem.
    + destruct (remove_first_split _ _ _ _ Ho) as (pre & post & H1 & H2 & H3).
      exists pre, post. auto.
  - reflexivity.
Qed.

(** ** Cancel button of the operator *)

(** C7. The cancel button never changes a seat whose status is paid: for
    every caller, a seat that differs after the handler had status hold,
    is listed by the cancelled order and is now free.  When the caller is an
    operator and the order exists, each hold seat the order refers to is
    released to free, and the order is spliced out of [orders]. *)
Theorem admin_cancel_spares_paid from orderId sess st :
  let r := cb_admin_cancel from orderId sess st in
  Forall2 (fun s s' => s_status s = SPaid -> s' = s)
          (seats st) (seats (r_store r))
  /\ Forall2 (fun s s' =>
                s' = s \/
                (s_status s = SHold /\ s' = touch to_free s /\
                 exists o, find_order (Some orderId) (orders st) = Some o /\
                           In (s_id s) (o_seatIds o)))
             (seats st) (seats (r_store r))
  /\ (isAdmin from = true ->
      forall o, find_order (Some orderId) (orders st) = Some o ->
        (forall id s, In id (o_seatIds o) -> find_seat id (seats st) = Some s ->
           find_seat id (seats (r_store r))
           = Some (match s_status s with
                   | SPaid => s
                   | _ => mkSeat (s_id s) (s_seatNo s) (s_showId s) SFree
                                 (s_orderId s)
                   end))
        /\ removed_from (Some orderId) o (orders st) (orders (r_store r))).
Proof.
  intros r. subst r. unfold cb_admin_cancel.
  assert (Hsame : forall l : list Seat,
             Forall2 (fun s s' : Seat => s' = s) l l).
  { induction l; constructor; auto. }
  assert (Hframe : Forall2 (fun s s' =>
                s' = s \/
                (s_status s = SHold /\ s' = touch to_free s /\
                 exists o, find_order (Some orderId) (orders st) = Some o /\
                           In (s_id s) (o_seatIds o)))
             (seats st)
             (seats (r_store
                (if negb (isAdmin from) then mkResult sess st []
                 else match find_order (Some orderId) (orders st) with
                      | None => mkResult sess st [AlertOrderNotFound]
                      | Some order =>
                          mkResult sess
                            (mkStore (shows st)
                               (mark free_unless_paid (o_seatIds order) (seats st))
                               (remove_first (order_is (Some orderId)) (orders st)))
                            [AnswerCancelled orderId; EditCancelled orderId]
                      end)))).
  { destruct (isAdmin from); cbn [negb r_store seats].
    - destruct (find_order (Some orderId) (orders st)) as [o|] eqn:Ho;
        cbn [r_store seats].
      + eapply Forall2_impl; [|apply mark_frame; exact free_unless_paid_idem].
        intros s s' [->|[Hin ->]]; [left; reflexivity|].
        destruct (s_status s) eqn:Es.
        * left. apply touch_fixed. rewrite Es. reflexivity.
        * right. split; [reflexivity|]. split.
          -- unfold touch. rewrite Es. reflexivity.
          -- exists o. split; [reflexivity | exact Hin].
        * left. apply touch_fixed. rewrite Es. reflexivity.
      + eapply Forall2_impl; [|apply Hsame]. intros; left; assumption.
    - eapply Forall2_impl; [|apply Hsame]. intros; left; assumption. }
  split; [|split].
  - eapply Forall2_impl; [|exact Hframe].
    intros s s' [->|[Hh _]] Hp; [reflexivity | congruence].
  - exact Hframe.
  - intros Hadm o Ho. rewrite Hadm, Ho.
    cbn [negb r_store seats orders]. split.
    + intros id s Hin Hs.
      rewrite find_seat_mark_in by (exact free_unless_paid_idem || exact Hin).
      rewrite Hs. simpl. f_equal.
      destruct s as [i n sh stt oi]; destruct stt; reflexivity.
    + destruct (remove_first_split _ _ _ _ Ho) as (pre & post & H1 & H2 & H3).
      exists pre, post. auto.
Qed.

(** ** Seat pick *)



(** C10 (amended). A pick of a seat that does not exist or is not free
    leaves the store and the session as they are; the seat is reported as
    taken when the session is in stage picking, and the callback is answered
    without text in any other stage. *)
Theorem seat_pick_rejects_unavailable showId seatNo sess st :
  (forall seat, find (seat_at showId seatNo) (seats st) = Some seat ->
                s_status seat <> SFree) ->
  let r := cb_seat showId seatNo sess st in
  r_store r = st /\
  r_session r = sess /\
  r_out r = [match stage sess with
             | picking => AnswerTaken
             | _ => AnswerSilent
             end].
Proof.
  intros H r. subst r. unfold cb_seat.
  destruct (stage sess) eqn:Es; simpl; auto.
  destruct (find (seat_at showId seatNo) (seats st)) as [seat|]; simpl; auto.
  specialize (H seat eq_refl).
  destruct (s_status seat); simpl; auto. congruence.
Qed.

(** ** Finalize *)

(** C1 (amended). The done handler rejects the action, changes nothing and
    creates no order when the session is not in stage picking or nothing is
    selected.  Otherwise, when every selected seat is free, every selected
    seat becomes hold, no other seat changes, and one pending order with the
    selection and [amount = count * 600] is pushed. *)
Theorem done_holds_free_selection from nano now sess st :
  let r := cb_done from nano now sess st in
  let sel := selection sess in
  (stage sess <> picking \/ sel = [] ->
   r = mkResult sess st [AnswerChooseFirst])
  /\
  (stage sess = picking -> sel <> [] ->
   (forall id, In id sel ->
      exists s, find_seat id (seats st) = Some s /\ s_status s = SFree) ->
   (forall id s, In id sel -> find_seat id (seats st) = Some s ->
      find_seat id (seats (r_store r))
      = Some (mkSeat (s_id s) (s_seatNo s) (s_showId s) SHold (s_orderId s)))
   /\ Forall2 (changed_by to_hold sel) (seats st) (seats (r_store r))
   /\ orders (r_store r)
      = orders st ++
        [mkOrder nano from (ps_showId sess) sel
                 (Z.of_nat (List.length sel) * 600) PPending None now]
   /\ stage (r_session r) = await_payment
   /\ ps_orderId (r_session r) = Some nano).
Proof.
  intros r sel. subst r. unfold cb_done. fold sel. split.
  - intros [Hs | Hs].
    + destruct (stage sess); try congruence; reflexivity.
    + rewrite Hs. cbn [List.length Nat.eqb]. rewrite orb_true_r. reflexivity.
  - intros Hs Hne _. rewrite Hs.
    destruct sel as [|a sel'] eqn:Esel; [congruence|].
    cbn [Stage_eqb negb orb List.length Nat.eqb r_store r_session seats orders
         stage ps_orderId].
    repeat split.
    + intros id s Hin Hf.
      rewrite find_seat_mark_in by (exact to_hold_idem || exact Hin).
      rewrite Hf. reflexivity.
    + apply mark_frame. exact to_hold_idem.
Qed.

(** ** Payment confirmation *)

Lemma order_is_set_payStatus orderId p o :
  order_is orderId (set_payStatus p o) = order_is orderId o.
Proof. reflexivity. Qed.

Lemma order_is_set_last4 orderId x o :
  order_is orderId (set_last4 x o) = order_is orderId o.
Proof. reflexivity. Qed.

Lemma seats_paid_after_mark ids l id s :
  In id ids -> find_seat id (mark to_paid ids l) = Some s -> s_status s = SPaid.
Proof.
  intros Hin. rewrite find_seat_mark_in by (exact to_paid_idem || exact Hin).
  destruct (find_seat id l); simpl; [|discriminate].
  intros H. injection H as <-. reflexivity.
Qed.

Lemma store_eta st : mkStore (shows st) (seats st) (orders st) = st.
Proof. destruct st; reflexivity. Qed.

(** Writing paid and the same proof on an order that has them, and paid on
    seats that are paid, changes nothing. *)
Lemma confirm_writes_fixed orderId p st :
  confirmed_with orderId p st ->
  update_first (order_is orderId) (set_payStatus PPaid) (orders st) = orders st
  /\ update_first (order_is orderId) (set_last4 (Some p)) (orders st) = orders st
  /\ forall o, find_order orderId (orders st) = Some o ->
               mark to_paid (o_seatIds o) (seats st) = seats st.
Proof.
  intros (o & Ho & Hp & Hl & Hs). repeat split.
  - apply update_first_fixed. intros x Hx. unfold find_order in Ho.
    assert (x = o) by congruence. subst x.
    destruct o; simpl in *. subst. reflexivity.
  - apply update_first_fixed. intros x Hx. unfold find_order in Ho.
    assert (x = o) by congruence. subst x.
    destruct o; simpl in *. subst. reflexivity.
  - intros o' Ho'. assert (o' = o) by congruence. subst o'.
    apply mark_fixed. intros id s Hin Hf. rewrite (Hs id s Hin Hf). reflexivity.
Qed.

Lemma cmd_paid_confirms from text sess st o p :
  isAdmin from = true ->
  nth_error (split_space text) 2 = Some p ->
  four_digits p = true ->
  find_order (nth_error (split_space text) 1) (orders st) = Some o ->
  let r := cmd_paid from text sess st in
  confirmed_with (nth_error (split_space text) 1) p (r_store r)
  /\ r_out r = [ReplyMarkedPaid (nth_error (split_space text) 1)].
Proof.
  intros Hadm Hl Hv Ho r. subst r. unfold cmd_paid.
  rewrite Hadm, Ho, Hl. cbn [negb valid_last4]. rewrite Hv.
  cbn [negb r_store r_out]. split; [|reflexivity].
  exists (set_last4 (Some p) (set_payStatus PPaid o)).
  cbn [orders seats]. unfold find_order in *.
  rewrite find_update_first_same by (intros; apply order_is_set_last4).
  rewrite find_update_first_same by (intros; apply order_is_set_payStatus).
  rewrite Ho. repeat split.
  intros id s. cbn [set_last4 set_payStatus o_seatIds].
  apply seats_paid_after_mark.
Qed.

Lemma cmd_paid_again from text sess st p :
  isAdmin from = true ->
  nth_error (split_space text) 2 = Some p ->
  four_digits p = true ->
  confirmed_with (nth_error (split_space text) 1) p st ->
  cmd_paid from text sess st
  = mkResult sess st [ReplyMarkedPaid (nth_error (split_space text) 1)].
Proof.
  intros Hadm Hl Hv Hc.
  destruct (confirm_writes_fixed _ _ _ Hc) as (H1 & H2 & H3).
  destruct Hc as (o & Ho & _).
  unfold cmd_paid. rewrite Hadm, Ho, Hl. cbn [negb valid_last4]. rewrite Hv.
  cbn [negb]. rewrite H1, H2, (H3 o Ho), store_eta. reflexivity.
Qed.

Lemma on_text_confirms text sess st o :
  stage sess = await_payment ->
  truthy_id (ps_orderId sess) = true ->
  four_digits (trim text) = true ->
  find_order (ps_orderId sess) (orders st) = Some o ->
  let r := on_text text sess st in
  confirmed_with (ps_orderId sess) (trim text) (r_store r)
  /\ r_session r = initialSession
  /\ r_out r = [ReplyThanks].
Proof.
  intros Hs Ht Hv Ho r. subst r. unfold on_text.
  rewrite Hs, Ht, Hv, Ho. cbn [Stage_eqb negb orb r_store r_session r_out].
  split; [|split; reflexivity].
  exists (set_payStatus PPaid (set_last4 (Some (trim text)) o)).
  cbn [orders seats]. unfold find_order in *.
  rewrite find_update_first_same by (intros; apply order_is_set_payStatus).
  rewrite find_update_first_same by (intros; apply order_is_set_last4).
  rewrite Ho. repeat split.
  intros id s. cbn [set_last4 set_payStatus o_seatIds].
  apply seats_paid_after_mark.
Qed.

Lemma on_text_again text sess st :
  stage sess = await_payment ->
  truthy_id (ps_orderId sess) = true ->
  four_digits (trim text) = true ->
  confirmed_with (ps_orderId sess) (trim text) st ->
  on_text text sess st = mkResult initialSession st [ReplyThanks].
Proof.
  intros Hs Ht Hv Hc.
  destruct (confirm_writes_fixed _ _ _ Hc) as (H1 & H2 & H3).
  destruct Hc as (o & Ho & _).
  unfold on_text. rewrite Hs, Ht, Hv, Ho. cbn [Stage_eqb negb orb].
  rewrite H2, H1, (H3 o Ho), store_eta. reflexivity.
Qed.

(** Confirming twice is confirming once.  After [/paid <id> <proof>]
    by an operator, or after the requester's four digits, the order is paid
    with that proof and its seats are paid; the same confirmation sent again
    through either entry leaves the whole store (the order, its proof, every
    seat) as it is and answers with the success message, never with an
    error. *)
Theorem confirm_payment_idempotent from text sess st utext usess p o :
  isAdmin from = true ->
  nth_error (split_space text) 2 = Some p ->
  four_digits p = true ->
  stage usess = await_payment ->
  truthy_id (ps_orderId usess) = true ->
  ps_orderId usess = nth_error (split_space text) 1 ->
  trim utext = p ->
  find_order (ps_orderId usess) (orders st) = Some o ->
  let a := cmd_paid from text sess st in
  let u := on_text utext usess st in
  (* the operator first *)
  cmd_paid from text (r_session a) (r_store a)
  = mkResult (r_session a) (r_store a) [ReplyMarkedPaid (ps_orderId usess)]
  /\ on_text utext usess (r_store a)
     = mkResult initialSession (r_store a) [ReplyThanks]
  (* the requester first *)
  /\ on_text utext usess (r_store u)
     = mkResult initialSession (r_store u) [ReplyThanks]
  /\ on_text utext (r_session u) (r_store u)
     = mkResult (r_session u) (r_store u) []
  /\ cmd_paid from text sess (r_store u)
     = mkResult sess (r_store u) [ReplyMarkedPaid (ps_orderId usess)].
Proof.
  intros Hadm Hl Hv Hs Ht Hid Htrim Ho a u.
  assert (Ho' : find_order (nth_error (split_space text) 1) (orders st) = Some o)
    by (rewrite <- Hid; exact Ho).
  assert (Hv' : four_digits (trim utext) = true) by (rewrite Htrim; exact Hv).
  destruct (cmd_paid_confirms from text sess st o p Hadm Hl Hv Ho') as [Ca _].
  destruct (on_text_confirms utext usess st o Hs Ht Hv' Ho) as (Cu & Su & _).
  fold a in Ca. fold u in Cu, Su.
  repeat split.
  - rewrite Hid. apply cmd_paid_again with (p := p); assumption.
  - apply on_text_again; try assumption. rewrite Hid, Htrim. exact Ca.
  - apply on_text_again; assumption.
  - rewrite Su. reflexivity.
  - rewrite Hid. apply cmd_paid_again with (p := p); try assumption.
    rewrite <- Hid, <- Htrim. exact Cu.
Qed.

(** ** Malformed proof *)

(** The text handler checks the digits before it looks the order up. *)
Lemma on_text_malformed_no_mutation text sess st :
  four_digits (trim text) = false ->
  r_store (on_text text sess st) = st /\
  r_session (on_text text sess st) = sess.
Proof.
  intros Hv. unfold on_text. rewrite Hv.
  destruct (negb (Stage_eqb (stage sess) await_payment)
            || negb (truthy_id (ps_orderId sess)))%bool; split; reflexivity.
Qed.

(** [/paid] writes [payStatus] before it checks the digits. *)
Lemma cmd_paid_malformed_marks_paid from text sess st o :
  isAdmin from = true ->
  find_order (nth_error (split_space text) 1) (orders st) = Some o ->
  valid_last4 (nth_error (split_space text) 2) = false ->
  let r := cmd_paid from text sess st in
  r_out r = [ReplyNeedLast4] /\
  seats (r_store r) = seats st /\
  find_order (nth_error (split_space text) 1) (orders (r_store r))
  = Some (set_payStatus PPaid o).
Proof.
  intros Hadm Ho Hv r. subst r. unfold cmd_paid.
  rewrite Hadm, Ho, Hv. cbn [negb r_out r_store with_orders seats orders].
  repeat split. unfold find_order in *.
  rewrite find_update_first_same by (intros; apply order_is_set_payStatus).
  rewrite Ho. reflexivity.
Qed.

(** ** What one update can do to the seats *)

(** Every handler either leaves [seats] alone or marks the seats of one id
    list with one of four assignments; paid is only written for the seats
    of an order that is in [orders], by a confirmation. *)
Lemma handle_seats u from sess st :
  let r := handle u from sess st in
  seats (r_store r) = seats st
  \/ (exists ids, seats (r_store r) = mark to_hold ids (seats st))
  \/ (exists ids, seats (r_store r) = mark to_free ids (seats st))
  \/ (exists ids, seats (r_store r) = mark free_unless_paid ids (seats st))
  \/ (exists o, In o (orders st) /\ is_confirm u = true /\
                seats (r_store r) = mark to_paid (o_seatIds o) (seats st)).
Proof.
  intros r; subst r; destruct u; cbn [handle].
  - left; reflexivity.
  - left; reflexivity.
  - unfold cb_show. destruct (find _ (shows st)); left; reflexivity.
  - unfold cb_seat. destruct (negb _); [left; reflexivity|].
    destruct (find _ (seats st)) as [seat|]; [|left; reflexivity].
    destruct (negb _); left; reflexivity.
  - unfold cb_done. destruct (_ || _)%bool; [left; reflexivity|].
    right; left. eexists. reflexivity.
  - unfold cb_paid. destruct (find_order _ _); left; reflexivity.
  - unfold cmd_paid. destruct (negb (isAdmin from)); [left; reflexivity|].
    destruct (find_order _ (orders st)) as [o|] eqn:Ho; [|left; reflexivity].
    destruct (negb (valid_last4 _)); [left; reflexivity|].
    right; right; right; right. exists o.
    split; [apply (find_some _ _ Ho) | split; reflexivity].
  - unfold cmd_free. destruct (negb (isAdmin from)); [left; reflexivity|].
    destruct (find_order _ (orders st)) as [o|]; [|left; reflexivity].
    right; right; left. eexists. reflexivity.
  - unfold cmd_orders. destruct (negb (isAdmin from)); [left; reflexivity|].
    destruct (rev _); left; reflexivity.
  - unfold cb_admin_cancel. destruct (negb (isAdmin from)); [left; reflexivity|].
    destruct (find_order _ (orders st)) as [o|]; [|left; reflexivity].
    right; right; right; left. eexists. reflexivity.
  - unfold cb_admin_paid. destruct (negb (isAdmin from)); [left; reflexivity|].
    destruct (find_order _ (orders st)) as [o|] eqn:Ho; [|left; reflexivity].
    right; right; right; right. exists o.
    split; [apply (find_some _ _ Ho) | split; reflexivity].
  - unfold on_text. destruct (_ || _)%bool; [left; reflexivity|].
    destruct (negb (four_digits _)); [left; reflexivity|].
    destruct (find_order _ (orders st)) as [o|] eqn:Ho; [|left; reflexivity].
    right; right; right; right. exists o.
    split; [apply (find_some _ _ Ho) | split; reflexivity].
Qed.

Lemma Forall2_refl_eq (A : Type) (R : A -> A -> Prop) (l : list A) :
  (forall x, R x x) -> Forall2 R l l.
Proof. intros H. induction l; constructor; auto. Qed.


(** ** The [orderId] field of a seat *)

Lemma handle_keeps_seat_orderId u from sess st :
  map s_orderId (seats (r_store (handle u from sess st)))
  = map s_orderId (seats st).
Proof.
  destruct (handle_seats u from sess st)
    as [E|[[ids E]|[[ids E]|[[ids E]|(o & _ & _ & E)]]]];
    rewrite E; try reflexivity; apply mark_orderId.
Qed.

Lemma boot_seats_orderId shs :
  Forall (fun s => s_orderId s = None) (seats (boot shs)).
Proof.
  unfold boot. cbn [seats]. apply Forall_forall. intros s Hs.
  apply in_flat_map in Hs. destruct Hs as (sh & _ & Hs).
  unfold seat_template in Hs. apply in_map_iff in Hs.
  destruct Hs as (n & <- & _). reflexivity.
Qed.

Lemma run_keeps_seat_orderId trace w :
  map s_orderId (seats (w_store (run w trace)))
  = map s_orderId (seats (w_store w)).
Proof.
  revert w. induction trace as [|e trace IH]; intros w; [reflexivity|].
  unfold run in *. cbn [fold_left]. rewrite IH. unfold step. cbn [w_store].
  apply handle_keeps_seat_orderId.
Qed.

(** C2 (amended). No handler writes the [orderId] of a seat: every update
    leaves the [orderId] of every seat as it was, and in every state reached
    from the boot inventory it is unset on every seat, hold and paid seats
    included.  A successful hold links order and seats on the order side
    only: each seat it finds becomes hold, keeps its [orderId], and has its
    id in the [seatIds] of the order pushed by that hold. *)
Theorem seat_orderId_never_written :
  (forall u from sess st,
      map s_orderId (seats (r_store (handle u from sess st)))
      = map s_orderId (seats st))
  /\ (forall shs trace,
         Forall (fun s => s_orderId s = None)
                (seats (w_store (run (boot_world shs) trace))))
  /\ (forall from nano now sess st,
         stage sess = picking -> selection sess <> [] ->
         let r := cb_done from nano now sess st in
         exists o,
           orders (r_store r) = orders st ++ [o] /\
           o_id o = nano /\
           forall id s, In id (selection sess) ->
                        find_seat id (seats st) = Some s ->
                        exists s',
                          find_seat id (seats (r_store r)) = Some s' /\
                          s_status s' = SHold /\
                          s_orderId s' = s_orderId s /\
                          In id (o_seatIds o)).
Proof.
  split; [|split].
  - intros. apply handle_keeps_seat_orderId.
  - intros shs trace.
    pose proof (run_keeps_seat_orderId trace (boot_world shs)) as E.
    pose proof (boot_seats_orderId shs) as B.
    cbn [boot_world w_store] in E.
    revert E B. generalize (seats (boot shs)).
    generalize (seats (w_store (run (boot_world shs) trace))).
    intros l1. induction l1 as [|x l1 IH]; intros [|y l2] E B;
      try discriminate; constructor.
    + simpl in E. inversion B; subst. congruence.
    + simpl in E. inversion B; subst. apply (IH l2); congruence.
  - intros from nano now sess st Hs Hne r. subst r. unfold cb_done.
    rewrite Hs. destruct (selection sess) as [|a sel] eqn:Esel; [congruence|].
    cbn [Stage_eqb negb orb List.length Nat.eqb r_store seats orders].
    eexists. split; [reflexivity|]. split; [reflexivity|].
    intros id s Hin Hf. exists (touch to_hold s).
    rewrite find_seat_mark_in by (exact to_hold_idem || exact Hin).
    rewrite Hf. repeat split. exact Hin.
Qed.

(** ** Shows of the selected seats *)

Lemma Forall2_In_l (A B : Type) (R : A -> B -> Prop) l l' x :
  Forall2 R l l' -> In x l -> exists y, In y l' /\ R x y.
Proof.
  induction 1 as [|a b l l' Hab _ IH]; intros Hin; [destruct Hin|].
  destruct Hin as [->|Hin].
  - exists b. split; [left; reflexivity | exact Hab].
  - destruct (IH Hin) as (y & Hy & Hr). exists y. split; [right|]; assumption.
Qed.

Lemma mark_keeps_seat g ids l s :
  idempotent g -> In s l ->
  exists s', In s' (mark g ids l) /\ s_id s' = s_id s /\ s_showId s' = s_showId s.
Proof.
  intros Hg Hin.
  destruct (Forall2_In_l _ _ _ _ _ _ (mark_frame g ids l Hg) Hin) as (s' & Hs' & Hc).
  exists s'. split; [exact Hs'|].
  destruct Hc as [->|[_ ->]]; split; reflexivity.
Qed.




Lemma In_update_first (A : Type) (p : A -> bool) f (l : list A) x :
  In x (update_first p f l) -> In x l \/ exists y, In y l /\ x = f y.
Proof.
  induction l as [|a r IH]; simpl; [tauto|].
  destruct (p a); simpl.
  - intros [<-|H]; [right; exists a; auto | left; auto].
  - intros [<-|H]; [left; auto|].
    destruct (IH H) as [H'|(y & Hy & ->)]; [left; auto | right; exists y; auto].
Qed.

Lemma In_remove_first (A : Type) (p : A -> bool) (l : list A) x :
  In x (remove_first p l) -> In x l.
Proof.
  induction l as [|a r IH]; simpl; [tauto|].
  destruct (p a); simpl; [auto|]. intros [<-|H]; auto.
Qed.







(** ** Expiry of stale holds *)

Lemma release_all_is_mark gone l :
  fold_left release_seats gone l
  = mark free_unless_paid (flat_map o_seatIds gone) l.
Proof.
  revert l. induction gone as [|o gone IH]; intros l; [reflexivity|].
  cbn [fold_left flat_map]. rewrite IH. unfold release_seats, mark.
  rewrite fold_left_app. reflexivity.
Qed.

Lemma filter_stale_twice now ttl l :
  filter (stale now ttl) (filter (fun o => negb (stale now ttl o)) l) = [].
Proof.
  induction l as [|o l IH]; [reflexivity|]. simpl.
  destruct (stale now ttl o) eqn:E; simpl; [exact IH|].
  rewrite E. exact IH.
Qed.

Lemma filter_fresh_twice now ttl l :
  filter (fun o => negb (stale now ttl o))
         (filter (fun o => negb (stale now ttl o)) l)
  = filter (fun o => negb (stale now ttl o)) l.
Proof.
  induction l as [|o l IH]; [reflexivity|]. simpl.
  destruct (stale now ttl o) eqn:E; simpl; [exact IH|].
  rewrite E. simpl. rewrite IH. reflexivity.
Qed.

(** The release of the cancel button is [release_seats]. *)
Lemma admin_cancel_releases from orderId sess st o :
  isAdmin from = true ->
  find_order (Some orderId) (orders st) = Some o ->
  seats (r_store (cb_admin_cancel from orderId sess st))
  = release_seats (seats st) o.
Proof.
  intros Hadm Ho. unfold cb_admin_cancel. rewrite Hadm, Ho. reflexivity.
Qed.

Lemma map_update_first_id orderId f l :
  (forall o, o_id (f o) = o_id o) ->
  map o_id (update_first (order_is orderId) f l) = map o_id l.
Proof.
  intros Hf. induction l as [|o l IH]; simpl; [reflexivity|].
  destruct (order_is orderId o); simpl; [rewrite Hf | rewrite IH]; reflexivity.
Qed.

(** The handlers of bot.ts have no expiry of their own: an order leaves
    [orders] only through [/free] or the cancel button, whatever its age. *)
Lemma orders_leave_only_by_operator u from sess st :
  match u with
  | CmdFree _ | CbAdminCancel _ => True
  | _ => exists extra,
      map o_id (orders (r_store (handle u from sess st)))
      = map o_id (orders st) ++ extra
  end.
Proof.
  assert (Hsame : exists extra : list string,
             map o_id (orders st) = map o_id (orders st) ++ extra)
    by (exists []; rewrite app_nil_r; reflexivity).
  destruct u; cbn [handle]; try exact I.
  - exact Hsame.
  - exact Hsame.
  - unfold cb_show. destruct (find _ (shows st)); exact Hsame.
  - unfold cb_seat. destruct (negb _); [exact Hsame|].
    destruct (find _ (seats st)); [|exact Hsame].
    destruct (negb _); exact Hsame.
  - unfold cb_done. destruct (_ || _)%bool; [exact Hsame|].
    cbn [r_store orders]. rewrite map_app. eexists. reflexivity.
  - unfold cb_paid. destruct (find_order _ _); exact Hsame.
  - unfold cmd_paid. destruct (negb (isAdmin from)); [exact Hsame|].
    destruct (find_order _ (orders st)); [|exact Hsame].
    destruct (negb (valid_last4 _)); cbn [r_store with_orders orders];
      exists []; rewrite app_nil_r, !map_update_first_id; reflexivity.
  - unfold cmd_orders. destruct (negb (isAdmin from)); [exact Hsame|].
    destruct (rev _); exact Hsame.
  - unfold cb_admin_paid. destruct (negb (isAdmin from)); [exact Hsame|].
    destruct (find_order _ (orders st)); [|exact Hsame].
    cbn [r_store orders].
    exists []. rewrite app_nil_r, map_update_first_id; reflexivity.
  - unfold on_text. destruct (_ || _)%bool; [exact Hsame|].
    destruct (negb (four_digits _)); [exact Hsame|].
    destruct (find_order _ (orders st)); [|exact Hsame].
    cbn [r_store orders].
    exists []. rewrite app_nil_r, !map_update_first_id; reflexivity.
Qed.

(** C3. [expireStaleHolds now ttl] removes from [orders] exactly the orders
    that are pending with [created < now - ttl] and counts them; a seat
    changes only if a removed order lists it and it was hold, and it becomes
    free (the release of cancel); every hold seat that a removed order
    refers to is released; paid seats and the seats of the other orders stay
    as they are; a second call right after the first changes nothing. *)
Theorem expire_stale_holds_exact now ttl st :
  let r := fst (expireStaleHolds now ttl st) in
  (forall o, In o (orders r) <-> In o (orders st) /\ stale now ttl o = false)
  /\ (forall o, stale now ttl o = true <->
                o_payStatus o = PPending /\ o_created o < now - ttl)
  /\ orders r = filter (fun o => negb (stale now ttl o)) (orders st)
  /\ snd (expireStaleHolds now ttl st)
     = List.length (filter (stale now ttl) (orders st))
  /\ Forall2 (fun s s' =>
                s' = s \/
                (s_status s = SHold /\ s' = touch to_free s /\
                 exists o, In o (orders st) /\ stale now ttl o = true /\
                           In (s_id s) (o_seatIds o)))
             (seats st) (seats r)
  /\ (forall o id s, In o (orders st) -> stale now ttl o = true ->
                     In id (o_seatIds o) -> find_seat id (seats st) = Some s ->
                     find_seat id (seats r)
                     = Some (match s_status s with
                             | SPaid => s
                             | _ => mkSeat (s_id s) (s_seatNo s) (s_showId s)
                                           SFree (s_orderId s)
                             end))
  /\ shows r = shows st
  /\ expireStaleHolds now ttl r = (r, 0%nat).
Proof.
  intros r. subst r. unfold expireStaleHolds.
  cbn [fst snd orders seats shows].
  rewrite release_all_is_mark.
  split; [|split; [|split; [|split; [|split; [|split; [|split]]]]]].
  - intros o. rewrite filter_In. split; intros [H1 H2]; split; auto.
    + destruct (stale now ttl o); [discriminate | reflexivity].
    + rewrite H2. reflexivity.
  - intros o. unfold stale. rewrite andb_true_iff, Z.ltb_lt.
    destruct (o_payStatus o); simpl; split; intros [H1 H2]; split;
      congruence || assumption.
  - reflexivity.
  - reflexivity.
  - eapply Forall2_impl; [|apply mark_frame; exact free_unless_paid_idem].
    intros s s' [->|[Hin ->]]; [left; reflexivity|].
    destruct (s_status s) eqn:Es.
    + left. apply touch_fixed. rewrite Es. reflexivity.
    + right. split; [reflexivity|]. split.
      * unfold touch. rewrite Es. reflexivity.
      * apply in_flat_map in Hin. destruct Hin as (o & Ho & Hin).
        apply filter_In in Ho. destruct Ho as [Ho Hst].
        exists o. auto.
    + left. apply touch_fixed. rewrite Es. reflexivity.
  - intros o id s Ho Hst Hin Hf.
    rewrite find_seat_mark_in.
    + rewrite Hf. simpl. f_equal.
      destruct s as [i n sh stt oi]; destruct stt; reflexivity.
    + exact free_unless_paid_idem.
    + apply in_flat_map. exists o. split; [|exact Hin].
      apply filter_In. auto.
  - reflexivity.
  - rewrite filter_stale_twice, filter_fresh_twice. reflexivity.
Qed.

(** ** Command texts *)

Lemma split_space_no_space s :
  no_space s = true -> split_space s = [s].
Proof.
  induction s as [|c r IH]; simpl; [reflexivity|].
  intros H. apply andb_true_iff in H. destruct H as [Hc Hr].
  destruct (Ascii.eqb c " "); [discriminate|].
  rewrite (IH Hr). reflexivity.
Qed.

Lemma split_space_not_nil s : split_space s <> [].
Proof.
  destruct s as [|c r]; simpl; [discriminate|].
  destruct (Ascii.eqb c " "); [discriminate|].
  destruct (split_space r); discriminate.
Qed.

(** Splitting distributes over a separating space. *)
Lemma split_space_app s t :
  split_space (s ++ String " " t) = split_space s ++ split_space t.
Proof.
  induction s as [|c r IH]; simpl; [reflexivity|].
  destruct (Ascii.eqb c " "); simpl; [rewrite IH; reflexivity|].
  rewrite IH. destruct (split_space r) eqn:E; [|reflexivity].
  exfalso. exact (split_space_not_nil r E).
Qed.

(** Joining the pieces with a space gives the text back. *)
Lemma join_split_space s : join_space (split_space s) = s.
Proof.
  unfold join_space. induction s as [|c r IH]; [reflexivity|].
  simpl. destruct (Ascii.eqb c " ") eqn:Ec.
  - apply Ascii.eqb_eq in Ec. subst c.
    destruct (split_space r) as [|w ws] eqn:E;
      [exfalso; exact (split_space_not_nil r E)|].
    simpl in *. rewrite IH. reflexivity.
  - destruct (split_space r) as [|w ws] eqn:E;
      [exfalso; exact (split_space_not_nil r E)|].
    simpl in *. destruct ws; [congruence|].
    rewrite <- IH. reflexivity.
Qed.

Lemma all_digits_no_space s : all_digits s = true -> no_space s = true.
Proof.
  induction s as [|c r IH]; simpl; [reflexivity|].
  intros H. apply andb_true_iff in H. destruct H as [Hc Hr].
  rewrite (IH Hr), andb_true_r.
  destruct (Ascii.eqb c " ") eqn:Ec; [|reflexivity].
  apply Ascii.eqb_eq in Ec. subst c. discriminate Hc.
Qed.

Lemma four_digits_no_space p : four_digits p = true -> no_space p = true.
Proof.
  unfold four_digits. intros H. apply andb_true_iff in H.
  apply all_digits_no_space. exact (proj2 H).
Qed.

(** The pieces of [<cmd> <arg1> <arg2>]. *)
Lemma split_two_args cmd a b :
  no_space cmd = true -> no_space a = true -> no_space b = true ->
  split_space (cmd ++ String " " (a ++ String " " b)) = [cmd; a; b].
Proof.
  intros Hc Ha Hb.
  rewrite !split_space_app, !split_space_no_space by assumption.
  reflexivity.
Qed.

Lemma split_one_arg cmd a :
  no_space cmd = true -> no_space a = true ->
  split_space (cmd ++ String " " a) = [cmd; a].
Proof.
  intros Hc Ha.
  rewrite split_space_app, !split_space_no_space by assumption.
  reflexivity.
Qed.

(** X10. [/paid <id> <four digits>], written with single spaces, confirms the
    order with that id: the order is paid with the digits as proof and each
    seat it refers to is paid. *)
Theorem paid_command_text_confirms from oid p sess st o :
  isAdmin from = true ->
  no_space oid = true ->
  four_digits p = true ->
  find_order (Some oid) (orders st) = Some o ->
  let r := cmd_paid from ("/paid" ++ String " " (oid ++ String " " p)) sess st in
  confirmed_with (Some oid) p (r_store r)
  /\ r_session r = sess
  /\ r_out r = [ReplyMarkedPaid (Some oid)].
Proof.
  intros Hadm Hoid Hp Ho r.
  assert (Hs : split_space ("/paid" ++ String " " (oid ++ String " " p))
               = ["/paid"%string; oid; p]).
  { apply split_two_args; [reflexivity | exact Hoid |].
    apply four_digits_no_space. exact Hp. }
  assert (H1 : nth_error
                 (split_space ("/paid" ++ String " " (oid ++ String " " p))) 1
               = Some oid) by (rewrite Hs; reflexivity).
  assert (H2 : nth_error
                 (split_space ("/paid" ++ String " " (oid ++ String " " p))) 2
               = Some p) by (rewrite Hs; reflexivity).
  pose proof (cmd_paid_confirms from _ sess st o p Hadm H2 Hp) as Hc.
  rewrite H1 in Hc. destruct (Hc Ho) as [C O]. fold r in C, O.
  split; [exact C|]. split; [|exact O].
  subst r. unfold cmd_paid. rewrite Hadm, H1, H2, Ho. cbn [negb valid_last4].
  rewrite Hp. reflexivity.
Qed.

Lemma find_order_absent orderId l :
  (forall o, In o l -> order_is orderId o = false) ->
  find_order orderId l = None.
Proof.
  intros H. unfold find_order.
  destruct (find (order_is orderId) l) as [o|] eqn:E; [|reflexivity].
  apply find_some in E. destruct E as [Hin Hp].
  rewrite (H o Hin) in Hp. discriminate.
Qed.

(** X11. A command text with no space carries no order id: [/paid] and [/free]
    sent bare by an operator answer "not found" and change nothing. *)
Theorem bare_command_not_found from text sess st :
  isAdmin from = true ->
  no_space text = true ->
  cmd_paid from text sess st = mkResult sess st [ReplyOrderNotFound]
  /\ cmd_free from text sess st = mkResult sess st [ReplyOrderNotFound].
Proof.
  intros Hadm Hs. unfold cmd_paid, cmd_free.
  rewrite Hadm, (split_space_no_space _ Hs). cbn [negb nth_error].
  rewrite (find_order_absent None (orders st)) by reflexivity.
  split; reflexivity.
Qed.

(** ** Seat selection *)

Lemma toggle_NoDup id sel : NoDup sel -> NoDup (toggle id sel).
Proof.
  intros H. unfold toggle. destruct (existsb (Z.eqb id) sel) eqn:E.
  - apply NoDup_filter. exact H.
  - apply NoDup_app; [exact H | repeat constructor; intros [] |].
    intros a Ha [Ea|[]]. subst a.
    assert (existsb (Z.eqb id) sel = true)
      by (apply existsb_exists; exists id; split; [exact Ha | apply Z.eqb_refl]).
    congruence.
Qed.

Lemma existsb_eqb_In id sel : existsb (Z.eqb id) sel = true <-> In id sel.
Proof.
  rewrite existsb_exists. split.
  - intros (x & Hx & E). apply Z.eqb_eq in E. subst. exact Hx.
  - intros H. exists id. split; [exact H | apply Z.eqb_refl].
Qed.

Lemma toggle_In id sel x :
  In x (toggle id sel) <->
  (x <> id /\ In x sel) \/ (x = id /\ ~ In id sel).
Proof.
  unfold toggle. destruct (existsb (Z.eqb id) sel) eqn:E.
  - apply existsb_eqb_In in E. rewrite filter_In, negb_true_iff, Z.eqb_neq.
    split; [intros [H1 H2]; left; auto | intros [[H1 H2]|[H1 H2]]; tauto].
  - assert (Hn : ~ In id sel)
      by (intros H; apply existsb_eqb_In in H; congruence).
    rewrite in_app_iff. simpl. split.
    + intros [H|[<-|[]]]; [left; split; [intros ->; tauto | exact H] | right; auto].
    + intros [[H1 H2]|[H1 H2]]; [left; exact H2 | right; left; auto].
Qed.

Lemma toggle_off id sel :
  ~ In id sel -> toggle id (toggle id sel) = sel.
Proof.
  intros Hn. unfold toggle at 2.
  assert (E : existsb (Z.eqb id) sel = false).
  { destruct (existsb (Z.eqb id) sel) eqn:E; [|reflexivity].
    apply existsb_eqb_In in E. tauto. }
  rewrite E. unfold toggle.
  assert (E2 : existsb (Z.eqb id) (sel ++ [id]) = true)
    by (apply existsb_eqb_In, in_or_app; right; left; reflexivity).
  rewrite E2, filter_app. simpl. rewrite Z.eqb_refl. simpl. rewrite app_nil_r.
  clear E E2. induction sel as [|a sel IH]; [reflexivity|].
  simpl. destruct (Z.eqb a id) eqn:Ea.
  - apply Z.eqb_eq in Ea. subst. exfalso. apply Hn. left. reflexivity.
  - simpl. rewrite IH; [reflexivity|]. intros H. apply Hn. right. exact H.
Qed.

(** The result of a pick of a free seat in stage picking. *)
Lemma cb_seat_accepts showId seatNo sess st seat :
  stage sess = picking ->
  find (seat_at showId seatNo) (seats st) = Some seat ->
  s_status seat = SFree ->
  cb_seat showId seatNo sess st
  = mkResult (mkSession picking (ps_orderId sess) (ps_showId sess)
                        (Some (toggle (s_id seat) (selection sess))))
             st
             [AnswerCount (List.length (toggle (s_id seat) (selection sess)))].
Proof.
  intros Hs Hf Hfree. unfold cb_seat. rewrite Hs, Hf, Hfree. reflexivity.
Qed.

(** X6. Pressing the button of a free seat twice: the seat is selected, then
    deselected.  The store is never touched, the selected seats are the same
    as before, and when the seat was not selected before the selection is
    exactly as before; the answers count the seats selected at each press. *)
Theorem seat_pick_twice_toggles_off showId seatNo sess st seat :
  stage sess = picking ->
  find (seat_at showId seatNo) (seats st) = Some seat ->
  s_status seat = SFree ->
  let r1 := cb_seat showId seatNo sess st in
  let r2 := cb_seat showId seatNo (r_session r1) (r_store r1) in
  r_store r2 = st
  /\ (forall x, In x (selection (r_session r2)) <-> In x (selection sess))
  /\ (~ In (s_id seat) (selection sess) ->
      selection (r_session r1) = selection sess ++ [s_id seat]
      /\ selection (r_session r2) = selection sess
      /\ r_out r1 = [AnswerCount (S (List.length (selection sess)))]
      /\ r_out r2 = [AnswerCount (List.length (selection sess))]).
Proof.
  intros Hs Hf Hfree r1 r2. subst r2 r1.
  rewrite (cb_seat_accepts showId seatNo sess st seat Hs Hf Hfree).
  cbn [r_session r_store].
  rewrite (fun s H => cb_seat_accepts showId seatNo s st seat H Hf Hfree)
    by reflexivity.
  cbn [r_session r_store r_out selection ps_seatIds].
  split; [reflexivity|]. split.
  - intros x. rewrite !toggle_In.
    destruct (in_dec Z.eq_dec (s_id seat) (selection sess));
      destruct (Z.eq_dec x (s_id seat)) as [->|Hne]; tauto.
  - intros Hn. rewrite (toggle_off _ _ Hn).
    assert (E : toggle (s_id seat) (selection sess)
                = selection sess ++ [s_id seat]).
    { unfold toggle. destruct (existsb (Z.eqb (s_id seat)) (selection sess)) eqn:E;
        [|reflexivity].
      apply existsb_eqb_In in E. tauto. }
    rewrite E. repeat split.
    rewrite length_app. simpl. rewrite Nat.add_1_r. reflexivity.
Qed.

(** ** Boot inventory *)

Lemma find_app_split (A : Type) (p : A -> bool) (l1 l2 : list A) :
  find p (l1 ++ l2)
  = match find p l1 with
    | Some x => Some x
    | None => find p l2
    end.
Proof.
  induction l1 as [|a l1 IH]; simpl; [reflexivity|].
  destruct (p a); [reflexivity | exact IH].
Qed.

Lemma seat_numbers_range n :
  In n (map Z.of_nat (seq 1 25)) <-> 1 <= n <= 25.
Proof.
  rewrite in_map_iff. split.
  - intros (k & <- & Hk). apply in_seq in Hk. lia.
  - intros H. exists (Z.to_nat n). split; [lia|]. apply in_seq. lia.
Qed.

Lemma find_seat_rows id showId n ks :
  find (seat_at showId n) (map (fun k => mkSeat (id * 100 + k) k id SFree None) ks)
  = if (Z.eqb id showId && existsb (fun k => Z.eqb k n) ks)%bool
    then Some (mkSeat (id * 100 + n) n id SFree None)
    else None.
Proof.
  induction ks as [|k ks IH]; cbn [map find existsb].
  - rewrite andb_false_r. reflexivity.
  - unfold seat_at at 1. cbn [s_showId s_seatNo]. rewrite IH.
    destruct (Z.eqb id showId); cbn [andb]; [|reflexivity].
    destruct (Z.eqb k n) eqn:Ek; cbn [orb]; [|reflexivity].
    apply Z.eqb_eq in Ek. subst k. reflexivity.
Qed.

Lemma seat_numbers_existsb n :
  existsb (fun k => Z.eqb k n) (map Z.of_nat (seq 1 25))
  = (Z.leb 1 n && Z.leb n 25)%bool.
Proof.
  destruct (Z.leb 1 n && Z.leb n 25)%bool eqn:E.
  - apply andb_true_iff in E. destruct E as [H1 H2].
    apply Z.leb_le in H1, H2. apply existsb_exists. exists n.
    split; [apply seat_numbers_range; lia | apply Z.eqb_refl].
  - destruct (existsb _ _) eqn:X; [|reflexivity].
    apply existsb_exists in X. destruct X as (k & Hk & Ek).
    apply Z.eqb_eq in Ek. subst k. apply seat_numbers_range in Hk.
    apply andb_false_iff in E. destruct E as [E|E]; apply Z.leb_gt in E; lia.
Qed.

Lemma find_seat_template sh showId n :
  find (seat_at showId n) (seat_template sh)
  = if (Z.eqb (sh_id sh) showId && Z.leb 1 n && Z.leb n 25)%bool
    then Some (mkSeat (showId * 100 + n) n showId SFree None)
    else None.
Proof.
  unfold seat_template. rewrite find_seat_rows, seat_numbers_existsb.
  rewrite andb_assoc.
  destruct (Z.eqb (sh_id sh) showId) eqn:Es; [|reflexivity].
  apply Z.eqb_eq in Es. subst showId. reflexivity.
Qed.

Lemma boot_find_seat shs showId n :
  find (seat_at showId n) (seats (boot shs))
  = if (existsb (fun sh => Z.eqb (sh_id sh) showId) shs
        && Z.leb 1 n && Z.leb n 25)%bool
    then Some (mkSeat (showId * 100 + n) n showId SFree None)
    else None.
Proof.
  unfold boot. cbn [seats].
  induction shs as [|sh shs IH]; [reflexivity|].
  cbn [flat_map existsb]. rewrite find_app_split, find_seat_template, IH.
  destruct (Z.eqb (sh_id sh) showId); simpl; [|reflexivity].
  destruct (Z.leb 1 n && Z.leb n 25)%bool eqn:E; simpl.
  - reflexivity.
  - rewrite <- andb_assoc, E, andb_false_r. reflexivity.
Qed.

Lemma boot_seats_length shs :
  List.length (seats (boot shs)) = (25 * List.length shs)%nat.
Proof.
  unfold boot. cbn [seats]. induction shs as [|sh shs IH]; [reflexivity|].
  cbn [flat_map]. rewrite length_app, IH. unfold seat_template.
  rewrite !length_map, length_seq. simpl. lia.
Qed.

(** X1. On first start, with show ids small enough for the seat ids to be
    exact, every show of the catalog gets seats 1 to 25, free, with id
    [show.id * 100 + seatNo]: the pick lookup by show and seat number finds
    exactly these, and finds nothing for another show or another number;
    the inventory has 25 seats per show, all of them free. *)
Theorem boot_seat_lookup shs showId n :
  ids_exact shs ->
  find (seat_at showId n) (seats (boot shs))
  = (if (existsb (fun sh => Z.eqb (sh_id sh) showId) shs
         && Z.leb 1 n && Z.leb n 25)%bool
     then Some (mkSeat (showId * 100 + n) n showId SFree None)
     else None)
  /\ List.length (seats (boot shs)) = (25 * List.length shs)%nat
  /\ Forall (fun s => s_status s = SFree) (seats (boot shs)).
Proof.
  intros _. split; [apply boot_find_seat|]. split; [apply boot_seats_length|].
  unfold boot. cbn [seats]. apply Forall_forall. intros s Hs.
  apply in_flat_map in Hs. destruct Hs as (sh & _ & Hs).
  unfold seat_template in Hs. apply in_map_iff in Hs.
  destruct Hs as (k & <- & _). reflexivity.
Qed.

Lemma boot_seat_ids shs x :
  In x (map s_id (seats (boot shs))) <->
  exists sh n, In sh shs /\ 1 <= n <= 25 /\ x = sh_id sh * 100 + n.
Proof.
  unfold boot. cbn [seats]. rewrite in_map_iff. split.
  - intros (s & <- & Hs). apply in_flat_map in Hs.
    destruct Hs as (sh & Hsh & Hs). unfold seat_template in Hs.
    apply in_map_iff in Hs. destruct Hs as (n & <- & Hn).
    exists sh, n. split; [exact Hsh|]. split; [|reflexivity].
    apply seat_numbers_range. exact Hn.
  - intros (sh & n & Hsh & Hn & ->).
    exists (mkSeat (sh_id sh * 100 + n) n (sh_id sh) SFree None).
    split; [reflexivity|]. apply in_flat_map. exists sh. split; [exact Hsh|].
    unfold seat_template. apply in_map_iff. exists n. split; [reflexivity|].
    apply seat_numbers_range. exact Hn.
Qed.

(** X2. The id rule [show.id * 100 + seatNo] gives every seat of the boot
    inventory an id of its own as soon as the shows have distinct ids, small
    enough for the seat ids to be exact. *)
Theorem boot_seat_ids_unique shs :
  ids_exact shs ->
  NoDup (map sh_id shs) -> NoDup (map s_id (seats (boot shs))).
Proof.
  intros _ Hnd. induction shs as [|sh shs IH]; [constructor|].
  inversion Hnd as [|? ? Hnot Hnd']; subst.
  change (seats (boot (sh :: shs)))
    with (seat_template sh ++ seats (boot shs)).
  rewrite map_app. apply NoDup_app.
  - unfold seat_template. rewrite !map_map. cbn [s_id].
    apply NoDup_map_NoDup_ForallPairs; [|apply seq_NoDup].
    intros a b _ _ H. lia.
  - exact (IH Hnd').
  - intros x Hx Hx'. apply boot_seat_ids in Hx'.
    destruct Hx' as (sh' & m & Hsh' & Hm & ->).
    unfold seat_template in Hx. rewrite map_map in Hx. cbn [s_id] in Hx.
    apply in_map_iff in Hx. destruct Hx as (n & E & Hn).
    apply seat_numbers_range in Hn.
    assert (sh_id sh = sh_id sh') by lia.
    apply Hnot. apply in_map_iff. exists sh'. split; [congruence | exact Hsh'].
Qed.

(** ** Seat keyboard *)

Lemma find_filter (A : Type) (p q : A -> bool) (l : list A) :
  find p (filter q l) = find (fun x => (q x && p x)%bool) l.
Proof.
  induction l as [|a l IH]; simpl; [reflexivity|].
  destruct (q a); simpl; [destruct (p a); [reflexivity | exact IH] | exact IH].
Qed.

Lemma seat_label_lookup showId st n :
  seat_label (filter (fun s => Z.eqb (s_showId s) showId) (seats st)) n
  = match find (seat_at showId n) (seats st) with
    | Some seat =>
        if SeatStatus_eqb (s_status seat) SFree then Some n else None
    | None => None
    end.
Proof. unfold seat_label. rewrite find_filter. reflexivity. Qed.

Lemma seat_keyboard_buttons showId st :
  List.concat (seat_keyboard showId st)
  = map (fun n =>
           mkButton
             (seat_label
                (filter (fun s => Z.eqb (s_showId s) showId) (seats st)) n)
             showId n)
        (map Z.of_nat (seq 1 25)).
Proof. reflexivity. Qed.

(** X4. The keyboard the show handler sends has one button per seat number 1 to
    25, in order, each carrying the show of the keyboard; a button shows its
    seat number exactly when a pick of that button, at the same store and in
    stage picking, is accepted, and the cross exactly when the pick answers
    that the seat is taken. *)
Theorem keyboard_agrees_with_pick showId sess st :
  stage sess = picking ->
  map b_seatNo (List.concat (seat_keyboard showId st)) = map Z.of_nat (seq 1 25)
  /\ forall b, In b (List.concat (seat_keyboard showId st)) ->
       b_showId b = showId
       /\ (b_label b = Some (b_seatNo b) \/ b_label b = None)
       /\ (b_label b = None <->
           cb_seat (b_showId b) (b_seatNo b) sess st
           = mkResult sess st [AnswerTaken]).
Proof.
  intros Hs. split; [reflexivity|].
  intros b Hb. rewrite seat_keyboard_buttons in Hb.
  apply in_map_iff in Hb. destruct Hb as (n & <- & _).
  cbn [b_showId b_label b_seatNo]. rewrite seat_label_lookup.
  split; [reflexivity|].
  unfold cb_seat. rewrite Hs. cbn [Stage_eqb negb].
  destruct (find (seat_at showId n) (seats st)) as [seat|].
  - destruct (SeatStatus_eqb (s_status seat) SFree); cbn [negb].
    + split; [left; reflexivity|]. split; intros H; discriminate H.
    + split; [right; reflexivity|]. split; reflexivity.
  - split; [right; reflexivity|]. split; reflexivity.
Qed.

(** ** Who can change what *)

(** X13. A user who is not in [ADMINS] gets nothing from the operator commands
    and buttons: no reply, no change of the session, no change of the
    store. *)
Theorem operator_updates_need_admin u from sess st :
  isAdmin from = false ->
  is_operator_update u = true ->
  handle u from sess st = mkResult sess st [].
Proof.
  intros Hadm Hu. destruct u; try discriminate Hu; cbn [handle];
    [unfold cmd_paid | unfold cmd_free | unfold cmd_orders
     | unfold cb_admin_cancel | unfold cb_admin_paid];
    rewrite Hadm; reflexivity.
Qed.

(** X14. Browsing never writes: greeting, show list, opening a show, picking
    seats, the "I paid" button and the list of pending orders leave the
    store exactly as it is. *)
Theorem browsing_keeps_store u from sess st :
  is_browsing u = true ->
  r_store (handle u from sess st) = st.
Proof.
  intros Hu. destruct u; try discriminate Hu; cbn [handle].
  - reflexivity.
  - reflexivity.
  - unfold cb_show. destruct (find _ (shows st)); reflexivity.
  - unfold cb_seat. destruct (negb _); [reflexivity|].
    destruct (find _ (seats st)); [|reflexivity].
    destruct (negb _); reflexivity.
  - unfold cb_paid. destruct (find_order _ _); reflexivity.
  - unfold cmd_orders. destruct (negb _); [reflexivity|].
    destruct (rev _); reflexivity.
Qed.

Lemma handle_shows u from sess st :
  shows (r_store (handle u from sess st)) = shows st.
Proof.
  destruct u; cbn [handle].
  - reflexivity.
  - reflexivity.
  - unfold cb_show. destruct (find _ (shows st)); reflexivity.
  - unfold cb_seat. destruct (negb _); [reflexivity|].
    destruct (find _ (seats st)); [|reflexivity].
    destruct (negb _); reflexivity.
  - unfold cb_done. destruct (_ || _)%bool; reflexivity.
  - unfold cb_paid. destruct (find_order _ _); reflexivity.
  - unfold cmd_paid. destruct (negb _); [reflexivity|].
    destruct (find_order _ (orders st)); [|reflexivity].
    destruct (negb _); reflexivity.
  - unfold cmd_free. destruct (negb _); [reflexivity|].
    destruct (find_order _ (orders st)); reflexivity.
  - unfold cmd_orders. destruct (negb _); [reflexivity|].
    destruct (rev _); reflexivity.
  - unfold cb_admin_cancel. destruct (negb _); [reflexivity|].
    destruct (find_order _ (orders st)); reflexivity.
  - unfold cb_admin_paid. destruct (negb _); [reflexivity|].
    destruct (find_order _ (orders st)); reflexivity.
  - unfold on_text. destruct (_ || _)%bool; [reflexivity|].
    destruct (negb _); [reflexivity|].
    destruct (find_order _ (orders st)); reflexivity.
Qed.

Lemma mark_shape g ids l :
  map seat_shape (mark g ids l) = map seat_shape l.
Proof.
  revert l. induction ids as [|a ids IH]; intros l; [reflexivity|].
  rewrite mark_cons, IH. clear.
  induction l as [|x r IH]; cbn [update_first map]; [reflexivity|].
  destruct (seat_is a x); cbn [map]; [reflexivity | rewrite IH; reflexivity].
Qed.

Lemma handle_seat_shapes u from sess st :
  map seat_shape (seats (r_store (handle u from sess st)))
  = map seat_shape (seats st).
Proof.
  destruct (handle_seats u from sess st)
    as [E|[[ids E]|[[ids E]|[[ids E]|(o & _ & _ & E)]]]];
    rewrite E; try reflexivity; apply mark_shape.
Qed.

(** X15. The catalog and the seat map are fixed: along any run the list of shows
    never changes, and the seats keep their number, order, id, seat number,
    show and [orderId]; only the status of a seat is ever written. *)
Theorem catalog_and_seat_map_fixed trace w :
  shows (w_store (run w trace)) = shows (w_store w)
  /\ map seat_shape (seats (w_store (run w trace)))
     = map seat_shape (seats (w_store w))
  /\ List.length (seats (w_store (run w trace)))
     = List.length (seats (w_store w)).
Proof.
  assert (H : shows (w_store (run w trace)) = shows (w_store w)
              /\ map seat_shape (seats (w_store (run w trace)))
                 = map seat_shape (seats (w_store w))).
  { revert w. induction trace as [|e trace IH]; intros w; [split; reflexivity|].
    unfold run in *. cbn [fold_left]. destruct (IH (step w e)) as [H1 H2].
    rewrite H1, H2. unfold step. cbn [w_store].
    split; [apply handle_shows | apply handle_seat_shapes]. }
  destruct H as [H1 H2]. split; [exact H1|]. split; [exact H2|].
  rewrite <- (length_map seat_shape), H2, length_map. reflexivity.
Qed.

(** ** Orders are only ever paid or removed *)

Lemma same_order_refl o : same_order_paid_later o o.
Proof. unfold same_order_paid_later. tauto. Qed.

Lemma update_first_twice_Forall2 (A : Type) (R : A -> A -> Prop)
  (p : A -> bool) f g (l : list A) :
  (forall x, p (g x) = p x) ->
  (forall x, R x x) ->
  (forall x, R x (f (g x))) ->
  Forall2 R l (update_first p f (update_first p g l)).
Proof.
  intros Hp Hr Hfg. induction l as [|x l IH]; simpl; [constructor|].
  destruct (p x) eqn:E; simpl.
  - rewrite Hp, E. constructor; [apply Hfg | apply Forall2_refl_eq; exact Hr].
  - rewrite E. constructor; [apply Hr | exact IH].
Qed.

Lemma update_first_once_Forall2 (A : Type) (R : A -> A -> Prop)
  (p : A -> bool) f (l : list A) :
  (forall x, R x x) ->
  (forall x, R x (f x)) ->
  Forall2 R l (update_first p f l).
Proof.
  intros Hr Hf. eapply Forall2_impl; [|apply update_first_Forall2].
  intros a b [->|[_ ->]]; auto.
Qed.

(** X16. No handler rewrites an order or takes a payment back.  After an update
    that is not a removal ([/free], the cancel button), the orders are the
    orders of before, in place, each with the same id, user, show, seats,
    amount and creation time, and paid if it was paid, followed by at most
    the one order of a done.  After a removal every order left is an order
    of before, unchanged. *)
Theorem orders_only_paid_or_removed u from sess st :
  let r := handle u from sess st in
  (is_removal u = false ->
   exists kept extra,
     orders (r_store r) = kept ++ extra /\
     Forall2 same_order_paid_later (orders st) kept /\
     (extra = [] \/ exists nano now, extra =
        [mkOrder nano from (ps_showId sess) (selection sess)
                 (Z.of_nat (List.length (selection sess)) * 600)
                 PPending None now]))
  /\ (is_removal u = true ->
      forall o, In o (orders (r_store r)) -> In o (orders st)).
Proof.
  intros r. subst r.
  assert (Hsame : exists kept extra,
             orders st = kept ++ extra /\
             Forall2 same_order_paid_later (orders st) kept /\
             (extra = [] \/ exists nano now, extra =
                [mkOrder nano from (ps_showId sess) (selection sess)
                         (Z.of_nat (List.length (selection sess)) * 600)
                         PPending None now])).
  { exists (orders st), []. rewrite app_nil_r.
    split; [reflexivity|]. split; [|left; reflexivity].
    apply Forall2_refl_eq. exact same_order_refl. }
  assert (Hupd : forall kept,
             Forall2 same_order_paid_later (orders st) kept ->
             exists kept0 extra,
               kept = kept0 ++ extra /\
               Forall2 same_order_paid_later (orders st) kept0 /\
               (extra = [] \/ exists nano now, extra =
                  [mkOrder nano from (ps_showId sess) (selection sess)
                           (Z.of_nat (List.length (selection sess)) * 600)
                           PPending None now])).
  { intros kept H. exists kept, []. rewrite app_nil_r.
    split; [reflexivity|]. split; [exact H | left; reflexivity]. }
  destruct u; cbn [handle is_removal]; split; intros Hr;
    try discriminate Hr; clear Hr.
  - exact Hsame.
  - exact Hsame.
  - unfold cb_show. destruct (find _ (shows st)); exact Hsame.
  - unfold cb_seat. destruct (negb _); [exact Hsame|].
    destruct (find _ (seats st)); [|exact Hsame].
    destruct (negb _); exact Hsame.
  - unfold cb_done. destruct (_ || _)%bool; [exact Hsame|].
    cbn [r_store orders]. exists (orders st). eexists.
    split; [reflexivity|].
    split; [apply Forall2_refl_eq; exact same_order_refl|].
    right. eexists. eexists. reflexivity.
  - unfold cb_paid. destruct (find_order _ _); exact Hsame.
  - unfold cmd_paid. destruct (negb (isAdmin from)); [exact Hsame|].
    destruct (find_order _ (orders st)); [|exact Hsame].
    destruct (negb (valid_last4 _)); cbn [r_store with_orders orders];
      apply Hupd.
    + apply update_first_once_Forall2; [exact same_order_refl|].
      intros x. unfold same_order_paid_later. cbn. tauto.
    + apply update_first_twice_Forall2;
        [reflexivity | exact same_order_refl |].
      intros x. unfold same_order_paid_later. cbn. tauto.
  - unfold cmd_free. destruct (negb (isAdmin from)); [intros ? H; exact H|].
    destruct (find_order _ (orders st)); [|intros ? H; exact H].
    cbn [r_store orders]. intros o'. apply In_remove_first.
  - unfold cmd_orders. destruct (negb (isAdmin from)); [exact Hsame|].
    destruct (rev _); exact Hsame.
  - unfold cb_admin_cancel.
    destruct (negb (isAdmin from)); [intros ? H; exact H|].
    destruct (find_order _ (orders st)); [|intros ? H; exact H].
    cbn [r_store orders]. intros o'. apply In_remove_first.
  - unfold cb_admin_paid. destruct (negb (isAdmin from)); [exact Hsame|].
    destruct (find_order _ (orders st)); [|exact Hsame].
    cbn [r_store orders]. apply Hupd.
    apply update_first_once_Forall2; [exact same_order_refl|].
    intros x. unfold same_order_paid_later. cbn. tauto.
  - unfold on_text. destruct (_ || _)%bool; [exact Hsame|].
    destruct (negb (four_digits _)); [exact Hsame|].
    destruct (find_order _ (orders st)); [|exact Hsame].
    cbn [r_store orders]. apply Hupd.
    apply update_first_twice_Forall2;
      [reflexivity | exact same_order_refl |].
    intros x. unfold same_order_paid_later. cbn. tauto.
Qed.

(** ** Marking, seat by seat *)

Lemma mark_map_no_ids g seen l : mark_map g [] seen l = l.
Proof.
  revert seen. induction l as [|s r IH]; intros seen; [reflexivity|].
  cbn [mark_map memZ existsb andb]. rewrite IH. reflexivity.
Qed.

Lemma memZ_cons x a l : memZ x (a :: l) = (Z.eqb x a || memZ x l)%bool.
Proof. reflexivity. Qed.

Lemma mark_map_seen_id g a ids seen l :
  memZ a seen = true ->
  mark_map g (a :: ids) seen l = mark_map g ids seen l.
Proof.
  revert seen. induction l as [|s r IH]; intros seen Ha; [reflexivity|].
  cbn [mark_map].
  assert (E : (memZ (s_id s) (a :: ids) && negb (memZ (s_id s) seen))%bool
              = (memZ (s_id s) ids && negb (memZ (s_id s) seen))%bool).
  { rewrite memZ_cons. destruct (Z.eqb (s_id s) a) eqn:E; [|reflexivity].
    apply Z.eqb_eq in E. rewrite E, Ha. cbn [negb].
    rewrite !andb_false_r. reflexivity. }
  rewrite E, IH; [reflexivity|].
  rewrite memZ_cons, Ha. apply orb_true_r.
Qed.

Lemma mark_map_update g a ids seen l :
  idempotent g ->
  memZ a seen = false ->
  mark_map g ids seen (update_first (seat_is a) (touch g) l)
  = mark_map g (a :: ids) seen l.
Proof.
  intros Hg. revert seen. induction l as [|s r IH]; intros seen Ha;
    [reflexivity|].
  cbn [update_first]. unfold seat_is at 1.
  destruct (Z.eqb (s_id s) a) eqn:E.
  - cbn [mark_map]. cbn [touch s_id]. rewrite memZ_cons, E. cbn [orb andb].
    apply Z.eqb_eq in E. rewrite E, Ha. cbn [negb]. rewrite andb_true_r.
    rewrite mark_map_seen_id by (rewrite memZ_cons, Z.eqb_refl; reflexivity).
    f_equal. destruct (memZ a ids); [|reflexivity].
    apply touch_touch. exact Hg.
  - cbn [mark_map]. rewrite memZ_cons, E. cbn [orb]. rewrite IH; [reflexivity|].
    rewrite memZ_cons, Ha, orb_false_r. rewrite Z.eqb_sym. exact E.
Qed.

Lemma mark_is_mark_map g ids l :
  idempotent g -> mark g ids l = mark_map g ids [] l.
Proof.
  intros Hg. revert l. induction ids as [|a ids IH]; intros l.
  - rewrite mark_map_no_ids. reflexivity.
  - rewrite mark_cons, IH. apply mark_map_update; [exact Hg | reflexivity].
Qed.

Lemma mark_map_compose g1 g2 ids seen l :
  mark_map g2 ids seen (mark_map g1 ids seen l)
  = mark_map (fun x => g2 (g1 x)) ids seen l.
Proof.
  revert seen. induction l as [|s r IH]; intros seen; [reflexivity|].
  cbn [mark_map].
  destruct (memZ (s_id s) ids && negb (memZ (s_id s) seen))%bool eqn:E;
    cbn [touch s_id]; rewrite E, IH; reflexivity.
Qed.

(** Two markings of the same ids in a row are one marking with the
    composed assignment. *)
Lemma mark_compose g1 g2 ids l :
  idempotent g1 -> idempotent g2 -> idempotent (fun x => g2 (g1 x)) ->
  mark g2 ids (mark g1 ids l) = mark (fun x => g2 (g1 x)) ids l.
Proof.
  intros H1 H2 H12.
  rewrite (mark_is_mark_map g1 ids l H1).
  rewrite (mark_is_mark_map g2 ids _ H2).
  rewrite (mark_is_mark_map _ ids l H12).
  apply mark_map_compose.
Qed.

Lemma remove_first_last (A : Type) (p : A -> bool) (l : list A) x :
  find p l = None -> p x = true -> remove_first p (l ++ [x]) = l.
Proof.
  intros Hn Hx. induction l as [|a l IH]; simpl.
  - rewrite Hx. reflexivity.
  - simpl in Hn. destruct (p a); [discriminate|]. rewrite (IH Hn). reflexivity.
Qed.

Lemma find_last (A : Type) (p : A -> bool) (l : list A) x :
  find p l = None -> p x = true -> find p (l ++ [x]) = Some x.
Proof.
  intros Hn Hx. rewrite find_app_split, Hn. simpl. rewrite Hx. reflexivity.
Qed.

(** ** Hold, then release *)

(** X8. A hold that the operator releases leaves no trace.  When the selected
    seats are free and no order has the new id, the done handler followed by
    [/free <id>], or by the cancel button of that order, gives back the
    store of before the hold: the same seats, the same orders. *)
Theorem hold_then_release_restores from adm nano now sess usess st :
  stage sess = picking ->
  selection sess <> [] ->
  (forall id s, In id (selection sess) -> find_seat id (seats st) = Some s ->
                s_status s = SFree) ->
  find_order (Some nano) (orders st) = None ->
  no_space nano = true ->
  isAdmin adm = true ->
  let held := r_store (cb_done from nano now sess st) in
  cmd_free adm ("/free" ++ String " " nano) usess held
  = mkResult usess st [ReplyFreed (Some nano)]
  /\ cb_admin_cancel adm nano usess held
     = mkResult usess st [AnswerCancelled nano; EditCancelled nano].
Proof.
  intros Hs Hne Hfree Hfresh Hnano Hadm held.
  assert (Hheld : held = mkStore (shows st)
            (mark to_hold (selection sess) (seats st))
            (orders st ++
             [mkOrder nano from (ps_showId sess) (selection sess)
                      (Z.of_nat (List.length (selection sess)) * TICKET_PRICE)
                      PPending None now])).
  { subst held. unfold cb_done. rewrite Hs.
    destruct (selection sess) eqn:E; [congruence|]. reflexivity. }
  set (o := mkOrder nano from (ps_showId sess) (selection sess)
                    (Z.of_nat (List.length (selection sess)) * TICKET_PRICE)
                    PPending None now) in *.
  assert (Hp : order_is (Some nano) o = true) by (apply String.eqb_refl).
  assert (Hfind : find_order (Some nano) (orders held) = Some o).
  { rewrite Hheld. cbn [orders]. apply find_last; assumption. }
  assert (Hrm : remove_first (order_is (Some nano)) (orders held) = orders st).
  { rewrite Hheld. cbn [orders]. apply remove_first_last; assumption. }
  assert (Hback : forall g,
             idempotent g -> idempotent (fun x => g (to_hold x)) ->
             (forall x, g (to_hold x) = SFree) ->
             mark g (o_seatIds o) (seats held) = seats st).
  { intros g Hg Hgh Hval. rewrite Hheld. cbn [seats o_seatIds o].
    rewrite mark_compose by (exact to_hold_idem || assumption).
    apply mark_fixed. intros id s Hin Hf.
    rewrite Hval. symmetry. exact (Hfree id s Hin Hf). }
  assert (Hshows : shows held = shows st) by (rewrite Hheld; reflexivity).
  split.
  - unfold cmd_free. rewrite Hadm.
    rewrite (split_one_arg "/free" nano eq_refl Hnano).
    cbn [negb nth_error]. rewrite Hfind, Hrm, Hshows.
    rewrite (Hback to_free) by (intros x; reflexivity).
    rewrite store_eta. reflexivity.
  - unfold cb_admin_cancel. rewrite Hadm. cbn [negb].
    rewrite Hfind, Hrm, Hshows.
    rewrite (Hback free_unless_paid)
      by (exact free_unless_paid_idem || intros x; reflexivity).
    rewrite store_eta. reflexivity.
Qed.

(** ** The operator's paid button *)

Lemma update_first_split (A : Type) (p : A -> bool) f (l : list A) x :
  find p l = Some x ->
  exists pre post,
    l = pre ++ x :: post /\
    (forall y, In y pre -> p y = false) /\
    update_first p f l = pre ++ f x :: post.
Proof.
  induction l as [|a r IH]; simpl; [discriminate|].
  destruct (p a) eqn:E; intros H.
  - injection H as <-. exists [], r. simpl. repeat split. intros y [].
  - destruct (IH H) as (pre & post & -> & Hpre & Hup).
    exists (a :: pre), post. simpl. rewrite Hup. repeat split.
    intros y [<-|Hy]; [exact E | exact (Hpre y Hy)].
Qed.

(** X12. The paid button of the operator needs no proof of payment: the first
    order with the id becomes paid and keeps its [last4] as it was, every
    other order stays as it is and where it is, each seat the order refers
    to becomes paid, and no other seat changes; the callback is answered
    with the paid text and the message is edited.  An unknown id gives the
    alert and changes nothing. *)
Theorem admin_paid_button_marks_paid from orderId sess st :
  isAdmin from = true ->
  let r := cb_admin_paid from orderId sess st in
  match find_order (Some orderId) (orders st) with
  | None => r = mkResult sess st [AlertOrderNotFound]
  | Some o =>
      find_order (Some orderId) (orders (r_store r))
      = Some (mkOrder (o_id o) (o_tgUser o) (o_showId o) (o_seatIds o)
                      (o_amount o) PPaid (o_last4 o) (o_created o))
      /\ (exists pre post,
             orders st = pre ++ o :: post /\
             (forall y, In y pre -> order_is (Some orderId) y = false) /\
             orders (r_store r)
             = pre ++ mkOrder (o_id o) (o_tgUser o) (o_showId o) (o_seatIds o)
                              (o_amount o) PPaid (o_last4 o) (o_created o)
                   :: post)
      /\ (forall id s, In id (o_seatIds o) -> find_seat id (seats st) = Some s ->
            find_seat id (seats (r_store r))
            = Some (mkSeat (s_id s) (s_seatNo s) (s_showId s) SPaid
                           (s_orderId s)))
      /\ Forall2 (changed_by to_paid (o_seatIds o))
                 (seats st) (seats (r_store r))
      /\ r_session r = sess
      /\ r_out r = [AnswerPaid orderId; EditPaid orderId]
  end.
Proof.
  intros Hadm r. subst r. unfold cb_admin_paid. rewrite Hadm. cbn [negb].
  destruct (find_order (Some orderId) (orders st)) as [o|] eqn:Ho;
    [|reflexivity].
  cbn [r_store r_session r_out orders seats].
  split; [|split; [|split; [|split; [|split]]]]; try reflexivity.
  - unfold find_order in *.
    rewrite find_update_first_same by (intros; apply order_is_set_payStatus).
    rewrite Ho. reflexivity.
  - destruct (update_first_split _ (order_is (Some orderId))
                (set_payStatus PPaid) _ _ Ho) as (pre & post & E1 & E2 & E3).
    exists pre, post. split; [exact E1|]. split; [exact E2 | exact E3].
  - intros id s Hin Hf.
    rewrite find_seat_mark_in by (exact to_paid_idem || exact Hin).
    rewrite Hf. reflexivity.
  - apply mark_frame. exact to_paid_idem.
Qed.

(** ** The requester's digits *)



(** ** The list of pending orders *)

(** X18. [/orders] shows the pending orders, newest first, and at most the last
    30 of them: the list shown, read backwards, is the end of the pending
    orders in store order; only orders before those 30 are left out.  The
    operator gets "no pending orders" exactly when no order is pending. *)
Theorem orders_command_lists_newest_pending from sess st :
  let pend :=
    filter (fun o => PayStatus_eqb (o_payStatus o) PPending) (orders st) in
  (exists older,
      pend = older ++ rev (pending_orders st) /\
      List.length older = (List.length pend - 30)%nat)
  /\ List.length (pending_orders st) = Nat.min 30 (List.length pend)
  /\ (forall o, In o (pending_orders st) ->
                In o (orders st) /\ o_payStatus o = PPending)
  /\ (isAdmin from = true ->
      r_store (cmd_orders from sess st) = st /\
      r_out (cmd_orders from sess st)
      = match pend with
        | [] => [ReplyNoPending]
        | _ => [ReplyPending (List.length (pending_orders st))]
        end).
Proof.
  intros pend. unfold pending_orders. fold pend.
  split; [|split; [|split]].
  - exists (firstn (List.length pend - 30) pend). rewrite rev_involutive.
    split; [symmetry; apply firstn_skipn|].
    rewrite length_firstn. lia.
  - rewrite length_rev, length_skipn. lia.
  - intros o Ho. apply in_rev in Ho.
    assert (Hin : In o pend).
    { rewrite <- (firstn_skipn (List.length pend - 30) pend).
      apply in_or_app. right. exact Ho. }
    apply filter_In in Hin. destruct Hin as [H1 H2].
    split; [exact H1|]. destruct (o_payStatus o); [reflexivity | discriminate].
  - intros Hadm. unfold cmd_orders. rewrite Hadm. cbn [negb]. fold pend.
    destruct pend as [|p pend'] eqn:E.
    + split; reflexivity.
    + assert (Hlen : List.length (rev (skipn (List.length (p :: pend') - 30)
                                               (p :: pend'))) <> 0%nat).
      { rewrite length_rev, length_skipn. cbn [List.length]. lia. }
      destruct (rev (skipn (List.length (p :: pend') - 30) (p :: pend')));
        [exfalso; apply Hlen; reflexivity|].
      split; reflexivity.
Qed.

Lemma firstn_plus (A : Type) (a b : nat) (l : list A) :
  firstn (a + b) l = firstn a l ++ firstn b (skipn a l).
Proof.
  revert l. induction a as [|a IH]; intros l; [reflexivity|].
  destruct l as [|x l]; simpl.
  - rewrite firstn_nil. reflexivity.
  - rewrite IH. reflexivity.
Qed.

Lemma concat_chunks_prefix (pending : list Order) n :
  List.concat (map (fun k => firstn 8 (skipn (8 * k) pending)) (seq 0 n))
  = firstn (8 * n) pending.
Proof.
  induction n as [|n IH]; [reflexivity|].
  rewrite seq_S, map_app, concat_app, IH. cbn [map List.concat Nat.add].
  rewrite app_nil_r.
  replace (8 * S n)%nat with (8 * n + 8)%nat by lia.
  rewrite firstn_plus. reflexivity.
Qed.

(** X19. The list is sent in messages of eight: the messages, put end to end,
    are the list; every message holds between one and eight orders; the
    30 orders of [/orders] need at most four messages. *)
Theorem order_chunks_cover pending :
  List.concat (order_chunks pending) = pending
  /\ Forall (fun c => (1 <= List.length c <= 8)%nat) (order_chunks pending)
  /\ List.length (order_chunks pending)
     = ((List.length pending + 7) / 8)%nat
  /\ ((List.length pending <= 30)%nat ->
      (List.length (order_chunks pending) <= 4)%nat).
Proof.
  unfold order_chunks. split; [|split; [|split]].
  - rewrite concat_chunks_prefix. apply firstn_all2.
    pose proof (Nat.div_mod_eq (List.length pending + 7) 8).
    pose proof (Nat.mod_upper_bound (List.length pending + 7) 8). lia.
  - apply Forall_forall. intros c Hc. apply in_map_iff in Hc.
    destruct Hc as (k & <- & Hk). apply in_seq in Hk.
    rewrite length_firstn, length_skipn.
    pose proof (Nat.div_mod_eq (List.length pending + 7) 8).
    pose proof (Nat.mod_upper_bound (List.length pending + 7) 8). lia.
  - rewrite length_map, length_seq. reflexivity.
  - intros H. rewrite length_map, length_seq.
    pose proof (Nat.div_mod_eq (List.length pending + 7) 8).
    pose proof (Nat.mod_upper_bound (List.length pending + 7) 8). lia.
Qed.

(** ** Seat numbers of an order *)

Lemma insert_asc_perm x l : Permutation (x :: l) (insert_asc x l).
Proof.
  induction l as [|y r IH]; simpl; [apply Permutation_refl|].
  destruct (Z.leb x y); [apply Permutation_refl|].
  eapply Permutation_trans; [apply perm_swap|].
  apply perm_skip. exact IH.
Qed.

Lemma sort_asc_perm l : Permutation l (sort_asc l).
Proof.
  induction l as [|x l IH]; simpl; [constructor|].
  eapply Permutation_trans; [apply perm_skip; exact IH|].
  apply insert_asc_perm.
Qed.

Lemma insert_asc_sorted x l :
  LocallySorted Z.le l -> LocallySorted Z.le (insert_asc x l).
Proof.
  intros H. induction H as [|y|y z r Hr IH Hyz]; simpl.
  - constructor.
  - destruct (Z.leb x y) eqn:E.
    + constructor; [constructor | apply Z.leb_le; exact E].
    + constructor; [constructor | apply Z.leb_gt in E; lia].
  - destruct (Z.leb x y) eqn:E.
    + constructor; [constructor; assumption | apply Z.leb_le; exact E].
    + simpl in IH. destruct (Z.leb x z) eqn:E2.
      * constructor; [exact IH | apply Z.leb_gt in E; lia].
      * constructor; [exact IH | exact Hyz].
Qed.

Lemma sort_asc_sorted l : LocallySorted Z.le (sort_asc l).
Proof.
  induction l as [|x l IH]; simpl; [constructor|].
  apply insert_asc_sorted. exact IH.
Qed.

(** X20. The label of an order in the list of the operator gives the seat
    numbers in ascending order: one number for each seat id of the order
    that has a seat in the inventory, none for an id without a seat. *)
Theorem seatsLabel_sorted_seat_numbers l o :
  LocallySorted Z.le (seatsLabel l o)
  /\ (forall n, In n (seatsLabel l o) <->
                exists id s, In id (o_seatIds o) /\
                             find_seat id l = Some s /\ s_seatNo s = n)
  /\ (List.length (seatsLabel l o) <= List.length (o_seatIds o))%nat
  /\ ((forall id, In id (o_seatIds o) -> find_seat id l <> None) ->
      List.length (seatsLabel l o) = List.length (o_seatIds o)).
Proof.
  unfold seatsLabel.
  set (nums := flat_map (fun id => match find_seat id l with
                                   | Some s => [s_seatNo s]
                                   | None => []
                                   end) (o_seatIds o)).
  pose proof (sort_asc_perm nums) as Hp.
  split; [apply sort_asc_sorted|]. split; [|split].
  - intros n. split.
    + intros Hn. apply (Permutation_in _ (Permutation_sym Hp)) in Hn.
      subst nums. apply in_flat_map in Hn. destruct Hn as (id & Hid & Hn).
      destruct (find_seat id l) as [s|] eqn:E; [|destruct Hn].
      destruct Hn as [<-|[]]. exists id, s. auto.
    + intros (id & s & Hid & Hf & <-). apply (Permutation_in _ Hp).
      subst nums. apply in_flat_map. exists id. split; [exact Hid|].
      rewrite Hf. left. reflexivity.
  - rewrite <- (Permutation_length Hp). subst nums. clear Hp.
    induction (o_seatIds o) as [|id ids IH]; cbn [flat_map List.length];
      [lia|].
    rewrite length_app. destruct (find_seat id l); cbn [List.length]; lia.
  - intros Hall. rewrite <- (Permutation_length Hp). subst nums. clear Hp.
    induction (o_seatIds o) as [|id ids IH]; cbn [flat_map List.length];
      [reflexivity|].
    rewrite length_app, IH by (intros i Hi; apply Hall; right; exact Hi).
    destruct (find_seat id l) eqn:E; [reflexivity|].
    exfalso. apply (Hall id); [left; reflexivity | exact E].
Qed.

(** ** Effects of an update on the store *)

Lemma update_first_compose (A : Type) (p : A -> bool) f g (l : list A) :
  (forall x, p (g x) = p x) ->
  update_first p f (update_first p g l) = update_first p (fun x => f (g x)) l.
Proof.
  intros Hp. induction l as [|x l IH]; simpl; [reflexivity|].
  destruct (p x) eqn:E; simpl.
  - rewrite Hp, E. reflexivity.
  - rewrite E, IH. reflexivity.
Qed.

Lemma payment_write_paid : payment_write (set_payStatus PPaid).
Proof. intros o. cbn. repeat split. left. reflexivity. Qed.

Lemma payment_write_paid_last4 p :
  four_digits p = true ->
  payment_write (fun o => set_last4 (Some p) (set_payStatus PPaid o)).
Proof. intros Hp o. cbn. repeat split. right. exists p. auto. Qed.

Lemma payment_write_last4_paid p :
  four_digits p = true ->
  payment_write (fun o => set_payStatus PPaid (set_last4 (Some p) o)).
Proof. intros Hp o. cbn. repeat split. right. exists p. auto. Qed.

(** Every handler has one of the four effects. *)
Lemma handle_effect u from sess st :
  Effect sess from st (r_store (handle u from sess st)).
Proof.
  destruct u; cbn [handle].
  - constructor.
  - constructor.
  - unfold cb_show. destruct (find _ (shows st)); constructor.
  - unfold cb_seat. destruct (negb _); [constructor|].
    destruct (find _ (seats st)); [|constructor].
    destruct (negb _); constructor.
  - unfold cb_done.
    destruct (negb (Stage_eqb (stage sess) picking)
              || Nat.eqb (List.length (selection sess)) 0)%bool eqn:G;
      [constructor|].
    apply orb_false_iff in G. destruct G as [G1 G2].
    assert (Es : stage sess = picking)
      by (destruct (stage sess); try discriminate G1; reflexivity).
    assert (Hne : selection sess <> [])
      by (intros E; rewrite E in G2; discriminate G2).
    exact (Eff_hold sess from st nano now Es Hne).
  - unfold cb_paid. destruct (find_order _ _); constructor.
  - unfold cmd_paid. destruct (negb (isAdmin from)); [constructor|].
    destruct (find_order _ (orders st)) as [o|] eqn:Ho; [|constructor].
    destruct (nth_error (split_space text) 2) as [p|] eqn:Ep;
      cbn [valid_last4 negb].
    + destruct (four_digits p) eqn:Hp; cbn [negb r_store].
      * rewrite update_first_compose by reflexivity.
        eapply Eff_pay; [exact Ho | | left; reflexivity].
        apply payment_write_paid_last4. exact Hp.
      * apply (Eff_pay sess from st _ o _ [] Ho payment_write_paid).
        right. reflexivity.
    + cbn [r_store].
      apply (Eff_pay sess from st _ o _ [] Ho payment_write_paid).
      right. reflexivity.
  - unfold cmd_free. destruct (negb (isAdmin from)); [constructor|].
    destruct (find_order _ (orders st)) as [o|] eqn:Ho; [|constructor].
    cbn [r_store]. eapply Eff_release; [exact Ho | left; reflexivity].
  - unfold cmd_orders. destruct (negb (isAdmin from)); [constructor|].
    destruct (rev _); constructor.
  - unfold cb_admin_cancel. destruct (negb (isAdmin from)); [constructor|].
    destruct (find_order _ (orders st)) as [o|] eqn:Ho; [|constructor].
    cbn [r_store]. eapply Eff_release; [exact Ho | right; reflexivity].
  - unfold cb_admin_paid. destruct (negb (isAdmin from)); [constructor|].
    destruct (find_order _ (orders st)) as [o|] eqn:Ho; [|constructor].
    cbn [r_store].
    eapply Eff_pay; [exact Ho | exact payment_write_paid | left; reflexivity].
  - unfold on_text. destruct (_ || _)%bool; [constructor|].
    destruct (four_digits (trim text)) eqn:Hp; cbn [negb]; [|constructor].
    destruct (find_order _ (orders st)) as [o|] eqn:Ho; [|constructor].
    cbn [r_store]. rewrite update_first_compose by reflexivity.
    eapply Eff_pay; [exact Ho | | left; reflexivity].
    apply payment_write_last4_paid. exact Hp.
Qed.

Lemma effect_shows sess from st st' :
  Effect sess from st st' -> shows st' = shows st.
Proof. intros H. destruct H; reflexivity. Qed.

Lemma effect_seat_ids sess from st st' s :
  Effect sess from st st' -> In s (seats st) ->
  exists s', In s' (seats st') /\ s_id s' = s_id s.
Proof.
  intros H Hin.
  assert (Hm : forall g ids, idempotent g ->
             exists s', In s' (mark g ids (seats st)) /\ s_id s' = s_id s).
  { intros g ids Hg.
    destruct (mark_keeps_seat g ids (seats st) s Hg Hin) as (s' & H1 & H2 & _).
    exists s'. auto. }
  destruct H as [|nano now Hs Hne|oid o f ids Ho Hf Hids|oid o g Ho Hg];
    cbn [seats].
  - exists s. auto.
  - apply Hm. exact to_hold_idem.
  - apply Hm. exact to_paid_idem.
  - destruct Hg as [->| ->]; apply Hm;
      [exact to_free_idem | exact free_unless_paid_idem].
Qed.

(** ** Well-formed sessions *)

Lemma session_wf_move st st' sess :
  shows st' = shows st ->
  (forall s, In s (seats st) -> exists s', In s' (seats st') /\ s_id s' = s_id s) ->
  session_wf st sess -> session_wf st' sess.
Proof.
  intros Hsh Hseats (H1 & H2 & H3). split; [exact H1|]. split.
  - intros id Hin. destruct (H2 id Hin) as (s & Hs & Hid).
    destruct (Hseats s Hs) as (s' & Hs' & Hid'). exists s'. split; congruence.
  - rewrite Hsh. exact H3.
Qed.

Lemma session_wf_same_selection st sess sess' :
  selection sess' = selection sess ->
  (stage sess' = picking ->
   stage sess = picking /\ ps_showId sess' = ps_showId sess) ->
  session_wf st sess -> session_wf st sess'.
Proof.
  intros Hsel Hst (H1 & H2 & H3). unfold session_wf. rewrite Hsel.
  split; [exact H1|]. split; [exact H2|].
  intros Hp. destruct (Hst Hp) as [Hp' Hshow]. rewrite Hshow. exact (H3 Hp').
Qed.

(** The session a handler returns is well formed if the session it got
    was. *)
Lemma handle_session_wf u from sess st :
  session_wf st sess -> session_wf st (r_session (handle u from sess st)).
Proof.
  intros Hwf.
  assert (Hstage : forall o i l,
             session_wf st (mkSession await_payment o i l)
             \/ True) by (intros; right; exact I).
  assert (Hawait : forall o,
             session_wf st (mkSession await_payment o (ps_showId sess)
                                      (ps_seatIds sess))).
  { intros o. apply (session_wf_same_selection st sess); [reflexivity | | exact Hwf].
    cbn. discriminate. }
  assert (Hidle : session_wf st initialSession).
  { split; [constructor|]. split; [intros id [] | cbn; discriminate]. }
  destruct u; cbn [handle]; try exact Hwf.
  - unfold cb_show.
    destruct (find _ (shows st)) as [sh|] eqn:Hf; [|exact Hwf].
    cbn [r_session]. split; [constructor|]. split; [intros id []|].
    intros _. exists sh. apply find_some in Hf. destruct Hf as [Hin Heq].
    split; [exact Hin|]. cbn. apply Z.eqb_eq in Heq. congruence.
  - unfold cb_seat. destruct (negb _); [exact Hwf|].
    destruct (find _ (seats st)) as [seat|] eqn:Hf; [|exact Hwf].
    destruct (negb _); [exact Hwf|]. cbn [r_session].
    destruct Hwf as (H1 & H2 & H3). split; [|split].
    + cbn. apply toggle_NoDup. exact H1.
    + cbn. intros id Hin. apply toggle_In in Hin.
      destruct Hin as [[_ Hin]|[-> _]]; [exact (H2 id Hin)|].
      exists seat. split; [exact (proj1 (find_some _ _ Hf)) | reflexivity].
    + exact H3.
  - unfold cb_done. destruct (_ || _)%bool; [exact Hwf|]. apply Hawait.
  - unfold cb_paid. destruct (find_order _ _); [|exact Hwf]. apply Hawait.
  - unfold cmd_paid. destruct (negb _); [exact Hwf|].
    destruct (find_order _ (orders st)); [|exact Hwf].
    destruct (negb _); exact Hwf.
  - unfold cmd_free. destruct (negb _); [exact Hwf|].
    destruct (find_order _ (orders st)); exact Hwf.
  - unfold cmd_orders. destruct (negb _); [exact Hwf|].
    destruct (rev _); exact Hwf.
  - unfold cb_admin_cancel. destruct (negb _); [exact Hwf|].
    destruct (find_order _ (orders st)); exact Hwf.
  - unfold cb_admin_paid. destruct (negb _); [exact Hwf|].
    destruct (find_order _ (orders st)); exact Hwf.
  - unfold on_text. destruct (_ || _)%bool; [exact Hwf|].
    destruct (negb _); [exact Hwf|].
    destruct (find_order _ (orders st)); [exact Hidle | exact Hwf].
Qed.

(** ** Well-formed orders *)

Lemma order_wf_move st st' o :
  shows st' = shows st ->
  (forall s, In s (seats st) -> exists s', In s' (seats st') /\ s_id s' = s_id s) ->
  order_wf st o -> order_wf st' o.
Proof.
  intros Hsh Hseats (H1 & H2 & H3 & H4 & H5 & H6).
  split; [exact H1|]. split; [exact H2|]. split; [exact H3|].
  split; [|split; [|exact H6]].
  - intros id Hin. destruct (H4 id Hin) as (s & Hs & Hid).
    destruct (Hseats s Hs) as (s' & Hs' & Hid'). exists s'. split; congruence.
  - rewrite Hsh. exact H5.
Qed.

Lemma order_wf_payment st f o :
  payment_write f -> order_wf st o -> order_wf st (f o).
Proof.
  intros Hf (H1 & H2 & H3 & H4 & H5 & H6).
  destruct (Hf o) as (_ & _ & F3 & F4 & F5 & _ & F7 & F8).
  unfold order_wf. rewrite F3, F4, F5.
  split; [exact H1|]. split; [exact H2|]. split; [exact H3|].
  split; [exact H4|]. split; [exact H5|].
  intros p Hp. split; [exact F7|].
  destruct F8 as [E|(q & Eq & Hq)].
  - rewrite E in Hp. exact (proj2 (H6 p Hp)).
  - congruence.
Qed.

Lemma effect_orders_wf sess from st st' :
  Effect sess from st st' ->
  session_wf st sess ->
  (forall o, In o (orders st) -> order_wf st o) ->
  forall o, In o (orders st') -> order_wf st' o.
Proof.
  intros H Hsess Hord o' Ho'.
  apply (order_wf_move st st');
    [exact (effect_shows _ _ _ _ H)
    | intros s; exact (effect_seat_ids _ _ _ _ s H) |].
  destruct H as [|nano now Hs Hne|oid o f ids Ho Hf Hids|oid o g Ho Hg];
    cbn [orders] in Ho'.
  - exact (Hord o' Ho').
  - apply in_app_or in Ho'. destruct Ho' as [Ho'|[<-|[]]]; [exact (Hord o' Ho')|].
    destruct Hsess as (S1 & S2 & S3).
    unfold order_wf. cbn.
    split; [exact Hne|]. split; [exact S1|]. split; [reflexivity|].
    split; [exact S2|]. split; [exact (S3 Hs)|]. intros p Hp. discriminate Hp.
  - destruct (In_update_first _ _ _ _ _ Ho') as [Hin|(y & Hy & ->)];
      [exact (Hord o' Hin)|].
    apply order_wf_payment; [exact Hf | exact (Hord y Hy)].
  - exact (Hord o' (In_remove_first _ _ _ _ Ho')).
Qed.

(** ** Seats behind a seat with the same id *)

Lemma later_seats_free_all_free seen l :
  Forall (fun s => s_status s = SFree) l -> later_seats_free seen l.
Proof.
  intros H. revert seen. induction H as [|s l Hs _ IH]; intros seen;
    [exact I|].
  split; [intros _; exact Hs | apply IH].
Qed.

Lemma later_seats_free_mark_map g ids seen l :
  later_seats_free seen l -> later_seats_free seen (mark_map g ids seen l).
Proof.
  revert seen. induction l as [|s r IH]; intros seen; [exact (fun H => H)|].
  intros [H1 H2]. cbn [mark_map later_seats_free].
  destruct (memZ (s_id s) seen) eqn:E; cbn [negb].
  - rewrite andb_false_r. split; [intros _; exact (H1 eq_refl) | exact (IH _ H2)].
  - destruct (memZ (s_id s) ids && true)%bool; cbn [touch s_id];
      (split; [rewrite E; discriminate | exact (IH _ H2)]).
Qed.

Lemma effect_later_seats_free sess from st st' :
  Effect sess from st st' ->
  later_seats_free [] (seats st) -> later_seats_free [] (seats st').
Proof.
  intros H Hl.
  destruct H as [|nano now Hs Hne|oid o f ids Ho Hf Hids|oid o g Ho Hg];
    cbn [seats]; [exact Hl | | |].
  - rewrite mark_is_mark_map by exact to_hold_idem.
    apply later_seats_free_mark_map. exact Hl.
  - rewrite mark_is_mark_map by exact to_paid_idem.
    apply later_seats_free_mark_map. exact Hl.
  - destruct Hg as [->| ->].
    + rewrite mark_is_mark_map by exact to_free_idem.
      apply later_seats_free_mark_map. exact Hl.
    + rewrite mark_is_mark_map by exact free_unless_paid_idem.
      apply later_seats_free_mark_map. exact Hl.
Qed.

(** ** Seats on hold are listed *)

Lemma memZ_In x l : memZ x l = true <-> In x l.
Proof. apply existsb_eqb_In. Qed.

Lemma holds_listed_mark_map g ids seen l ords ords' :
  later_seats_free seen l ->
  Forall (fun s => s_status s = SHold -> listed ords s) l ->
  (forall o, In o ords ->
     (exists o', In o' ords' /\ o_seatIds o' = o_seatIds o)
     \/ ((forall x, g x <> SHold) /\ incl (o_seatIds o) ids)) ->
  ((forall x, g x <> SHold) \/ exists o', In o' ords' /\ incl ids (o_seatIds o')) ->
  Forall (fun s => s_status s = SHold -> listed ords' s)
         (mark_map g ids seen l).
Proof.
  intros Hl Hf Hold Hnew. revert seen Hl.
  induction Hf as [|s r Hs _ IH]; intros seen Hl; [constructor|].
  destruct Hl as [L1 L2]. cbn [mark_map]. constructor; [|exact (IH _ L2)].
  destruct (memZ (s_id s) ids && negb (memZ (s_id s) seen))%bool eqn:E.
  - cbn [touch s_status s_id]. intros Hh.
    destruct Hnew as [Hg|(o' & Ho' & Hincl)]; [exfalso; exact (Hg _ Hh)|].
    exists o'. split; [exact Ho'|]. apply Hincl.
    apply andb_true_iff in E. apply memZ_In. exact (proj1 E).
  - intros Hh. destruct (Hs Hh) as (o & Ho & Hin).
    destruct (Hold o Ho) as [(o' & Ho' & Eq)|[_ Hincl]].
    + exists o'. split; [exact Ho' | rewrite Eq; exact Hin].
    + exfalso. apply Hincl in Hin. apply memZ_In in Hin. rewrite Hin in E.
      cbn [andb] in E. apply negb_false_iff in E.
      rewrite (L1 E) in Hh. discriminate Hh.
Qed.

Lemma In_remove_first_or (A : Type) (p : A -> bool) (l : list A) x y :
  find p l = Some x -> In y l -> y = x \/ In y (remove_first p l).
Proof.
  induction l as [|a l IH]; simpl; [discriminate|].
  destruct (p a).
  - intros H [<-|Hy]; [left; congruence | right; exact Hy].
  - intros H [<-|Hy]; [right; left; reflexivity|].
    destruct (IH H Hy); [left; assumption | right; right; assumption].
Qed.

Lemma In_update_first_back (A : Type) (p : A -> bool) f (l : list A) x :
  In x l -> exists y, In y (update_first p f l) /\ (y = x \/ y = f x).
Proof.
  induction l as [|a l IH]; simpl; [tauto|].
  intros [<-|Hx].
  - destruct (p a); [exists (f a) | exists a]; simpl; auto.
  - destruct (p a).
    + exists x. simpl. auto.
    + destruct (IH Hx) as (y & Hy & E). exists y. simpl. auto.
Qed.

Lemma effect_holds_listed sess from st st' :
  Effect sess from st st' ->
  later_seats_free [] (seats st) ->
  holds_listed st -> holds_listed st'.
Proof.
  intros H Hl Hh. unfold holds_listed in *.
  destruct H as [|nano now Hs Hne|oid o f ids Ho Hf Hids|oid o g Ho Hg];
    cbn [seats orders]; [exact Hh | | |].
  - rewrite mark_is_mark_map by exact to_hold_idem.
    apply (holds_listed_mark_map _ _ _ _ (orders st)); try assumption.
    + intros o Ho. left. exists o. split; [|reflexivity].
      apply in_or_app. left. exact Ho.
    + right. eexists. split; [apply in_or_app; right; left; reflexivity|].
      cbn. apply incl_refl.
  - rewrite mark_is_mark_map by exact to_paid_idem.
    apply (holds_listed_mark_map _ _ _ _ (orders st)); try assumption.
    + intros o1 Ho1. left.
      destruct (In_update_first_back _ (order_is oid) f _ _ Ho1)
        as (y & Hy & [->| ->]).
      * exists o1. auto.
      * exists (f o1). split; [exact Hy|].
        destruct (Hf o1) as (_ & _ & _ & F4 & _). exact F4.
    + left. intros x. discriminate.
  - assert (Hnh : forall x, g x <> SHold)
      by (destruct Hg as [->| ->]; intros []; discriminate).
    assert (Hgi : idempotent g)
      by (destruct Hg as [->| ->];
          [exact to_free_idem | exact free_unless_paid_idem]).
    rewrite mark_is_mark_map by exact Hgi.
    apply (holds_listed_mark_map _ _ _ _ (orders st)); try assumption.
    + intros o1 Ho1.
      destruct (In_remove_first_or _ _ _ _ _ Ho Ho1) as [->|Hin].
      * right. split; [exact Hnh | apply incl_refl].
      * left. exists o1. auto.
    + left. exact Hnh.
Qed.

(** ** Every reachable world is well formed *)

Lemma step_world_wf w e : world_wf w -> world_wf (step w e).
Proof.
  intros (Hsess & Hord & Hlater & Hheld). unfold step.
  set (sess := get_session (e_chat e) (w_sessions w)).
  pose proof (handle_effect (e_update e) (e_from e) sess (w_store w)) as Heff.
  pose proof (handle_session_wf (e_update e) (e_from e) sess (w_store w)
                                (Hsess (e_chat e))) as Hnew.
  set (r := handle (e_update e) (e_from e) sess (w_store w)) in *.
  assert (Hsh : shows (r_store r) = shows (w_store w))
    by exact (effect_shows _ _ _ _ Heff).
  assert (Hids : forall s, In s (seats (w_store w)) ->
            exists s', In s' (seats (r_store r)) /\ s_id s' = s_id s)
    by (intros s; exact (effect_seat_ids _ _ _ _ s Heff)).
  split; [|split; [|split]]; cbn [w_store w_sessions].
  - intros chat. cbn [get_session].
    apply (session_wf_move (w_store w)); [exact Hsh | exact Hids |].
    destruct (Z.eqb (e_chat e) chat); [exact Hnew | exact (Hsess chat)].
  - exact (effect_orders_wf _ _ _ _ Heff (Hsess (e_chat e)) Hord).
  - exact (effect_later_seats_free _ _ _ _ Heff Hlater).
  - exact (effect_holds_listed _ _ _ _ Heff Hlater Hheld).
Qed.

Lemma boot_world_wf shs : world_wf (boot_world shs).
Proof.
  assert (Hfree : Forall (fun s => s_status s = SFree) (seats (boot shs))).
  { unfold boot. cbn [seats]. apply Forall_forall. intros s Hs.
    apply in_flat_map in Hs. destruct Hs as (sh & _ & Hs).
    unfold seat_template in Hs. apply in_map_iff in Hs.
    destruct Hs as (n & <- & _). reflexivity. }
  split; [|split; [|split]]; cbn [boot_world w_store w_sessions].
  - intros chat. cbn [get_session]. split; [constructor|].
    split; [intros id [] | cbn; discriminate].
  - intros o [].
  - apply later_seats_free_all_free. exact Hfree.
  - unfold holds_listed. eapply Forall_impl; [|exact Hfree].
    cbn. intros s Hs Hh. rewrite Hs in Hh. discriminate Hh.
Qed.

Lemma run_world_wf trace w : world_wf w -> world_wf (run w trace).
Proof.
  revert w. induction trace as [|e trace IH]; intros w Hw; [exact Hw|].
  unfold run. cbn [fold_left]. apply IH, step_world_wf, Hw.
Qed.

(** X21. In every state reached from the first start, each order lists at least
    one seat and no seat twice, every seat it lists is a seat of the
    inventory, its amount is 600 times the number of its seats, and its show
    is a show of the catalog (the unchecked [showId!] of the done handler
    is never [undefined]). *)
Theorem reachable_orders_well_formed shs trace o :
  let st := w_store (run (boot_world shs) trace) in
  In o (orders st) ->
  o_seatIds o <> []
  /\ NoDup (o_seatIds o)
  /\ o_amount o = Z.of_nat (List.length (o_seatIds o)) * TICKET_PRICE
  /\ (forall id, In id (o_seatIds o) -> find_seat id (seats st) <> None)
  /\ (exists sh, In sh (shows st) /\ o_showId o = Some (sh_id sh)).
Proof.
  intros st Ho.
  destruct (run_world_wf trace (boot_world shs) (boot_world_wf shs))
    as (_ & Hord & _).
  destruct (Hord o Ho) as (H1 & H2 & H3 & H4 & H5 & _).
  split; [exact H1|]. split; [exact H2|]. split; [exact H3|].
  split; [|exact H5].
  intros id Hin Hnone. destruct (H4 id Hin) as (s & Hs & Hid).
  apply (find_none _ _ Hnone) in Hs. unfold seat_is in Hs.
  rewrite Hid, Z.eqb_refl in Hs. discriminate Hs.
Qed.

(** X22. In every state reached from the first start, an order that carries a
    proof of payment is paid, and the proof is four digits. *)
Theorem reachable_proof_only_on_paid shs trace o p :
  In o (orders (w_store (run (boot_world shs) trace))) ->
  o_last4 o = Some p ->
  o_payStatus o = PPaid /\ four_digits p = true.
Proof.
  intros Ho Hp.
  destruct (run_world_wf trace (boot_world shs) (boot_world_wf shs))
    as (_ & Hord & _).
  destruct (Hord o Ho) as (_ & _ & _ & _ & _ & H6). exact (H6 p Hp).
Qed.

(** X23. No orphaned hold: in every state reached from the first start, each
    seat on hold is listed by an order of the store. *)
Theorem reachable_holds_are_listed shs trace s :
  let st := w_store (run (boot_world shs) trace) in
  In s (seats st) ->
  s_status s = SHold ->
  exists o, In o (orders st) /\ In (s_id s) (o_seatIds o).
Proof.
  intros st Hs Hh.
  destruct (run_world_wf trace (boot_world shs) (boot_world_wf shs))
    as (_ & _ & _ & Hheld).
  unfold holds_listed in Hheld. rewrite Forall_forall in Hheld.
  exact (Hheld s Hs Hh).
Qed.

(** X24. In every state reached from the first start, the selection of every
    session has no seat twice and only seats of the inventory, and a session
    in stage picking has a show of the catalog. *)
Theorem reachable_sessions_well_formed shs trace chat :
  let w := run (boot_world shs) trace in
  let sess := get_session chat (w_sessions w) in
  NoDup (selection sess)
  /\ (forall id, In id (selection sess) ->
                 find_seat id (seats (w_store w)) <> None)
  /\ (stage sess = picking ->
      exists sh, In sh (shows (w_store w)) /\ ps_showId sess = Some (sh_id sh)).
Proof.
  intros w sess.
  destruct (run_world_wf trace (boot_world shs) (boot_world_wf shs))
    as (Hsess & _).
  destruct (Hsess chat) as (H1 & H2 & H3). fold w in H1, H2, H3.
  split; [exact H1|]. split; [|exact H3].
  intros id Hin Hnone. destruct (H2 id Hin) as (s & Hs & Hid).
  apply (find_none _ _ Hnone) in Hs. unfold seat_is in Hs.
  rewrite Hid, Z.eqb_refl in Hs. discriminate Hs.
Qed.

(** ** Paid seats *)

Lemma mark_keeps_paid g ids l :
  idempotent g -> g SPaid = SPaid ->
  Forall2 (fun s s' => s_status s = SPaid -> s' = s) l (mark g ids l).
Proof.
  intros Hg Hp. eapply Forall2_impl; [|apply mark_frame; exact Hg].
  intros s s' [->|[_ ->]] Hs; [reflexivity|].
  apply touch_fixed. rewrite Hs. exact Hp.
Qed.

(** X17. A paid seat is only ever written by [/free] and by the done handler:
    under every other update (the payments, the cancel button, browsing) a
    seat that is paid stays exactly as it is. *)
Theorem paid_seat_kept_by_other_updates u from sess st :
  match u with
  | CmdFree _ | CbDone _ _ _ => False
  | _ => True
  end ->
  Forall2 (fun s s' => s_status s = SPaid -> s' = s)
          (seats st) (seats (r_store (handle u from sess st))).
Proof.
  intros Hu.
  assert (Hsame : Forall2 (fun s s' => s_status s = SPaid -> s' = s)
                          (seats st) (seats st))
    by (apply Forall2_refl_eq; reflexivity).
  destruct u; try destruct Hu; cbn [handle].
  - exact Hsame.
  - exact Hsame.
  - unfold cb_show. destruct (find _ (shows st)); exact Hsame.
  - unfold cb_seat. destruct (negb _); [exact Hsame|].
    destruct (find _ (seats st)); [|exact Hsame].
    destruct (negb _); exact Hsame.
  - unfold cb_paid. destruct (find_order _ _); exact Hsame.
  - unfold cmd_paid. destruct (negb _); [exact Hsame|].
    destruct (find_order _ (orders st)); [|exact Hsame].
    destruct (negb _); [exact Hsame|]. cbn [r_store seats].
    apply mark_keeps_paid; [exact to_paid_idem | reflexivity].
  - unfold cmd_orders. destruct (negb _); [exact Hsame|].
    destruct (rev _); exact Hsame.
  - unfold cb_admin_cancel. destruct (negb _); [exact Hsame|].
    destruct (find_order _ (orders st)); [|exact Hsame]. cbn [r_store seats].
    apply mark_keeps_paid; [exact free_unless_paid_idem | reflexivity].
  - unfold cb_admin_paid. destruct (negb _); [exact Hsame|].
    destruct (find_order _ (orders st)); [|exact Hsame]. cbn [r_store seats].
    apply mark_keeps_paid; [exact to_paid_idem | reflexivity].
  - unfold on_text. destruct (_ || _)%bool; [exact Hsame|].
    destruct (negb _); [exact Hsame|].
    destruct (find_order _ (orders st)); [|exact Hsame]. cbn [r_store seats].
    apply mark_keeps_paid; [exact to_paid_idem | reflexivity].
Qed.

(** ** From hold to sale *)

Lemma update_first_last (A : Type) (p : A -> bool) f (l : list A) x :
  find p l = None -> p x = true ->
  update_first p f (l ++ [x]) = l ++ [f x].
Proof.
  intros Hn Hx. induction l as [|a l IH]; simpl.
  - rewrite Hx. reflexivity.
  - simpl in Hn. destruct (p a); [discriminate|]. rewrite (IH Hn). reflexivity.
Qed.

(** X7. The requester's whole way.  After a done with a new, non-empty order
    id, the session waits for payment; four digits sent next turn the order
    just created into a paid order carrying the digits, set every seat of
    the selection that exists to paid, change no other order, thank the
    requester and reset the session. *)
Theorem hold_then_digits_sells from nano now text sess st :
  stage sess = picking ->
  selection sess <> [] ->
  find_order (Some nano) (orders st) = None ->
  nano <> EmptyString ->
  four_digits (trim text) = true ->
  let r1 := cb_done from nano now sess st in
  let r2 := on_text text (r_session r1) (r_store r1) in
  stage (r_session r1) = await_payment
  /\ orders (r_store r2)
     = orders st ++
       [mkOrder nano from (ps_showId sess) (selection sess)
                (Z.of_nat (List.length (selection sess)) * 600)
                PPaid (Some (trim text)) now]
  /\ (forall id s, In id (selection sess) -> find_seat id (seats st) = Some s ->
        find_seat id (seats (r_store r2))
        = Some (mkSeat (s_id s) (s_seatNo s) (s_showId s) SPaid (s_orderId s)))
  /\ r_session r2 = initialSession
  /\ r_out r2 = [ReplyThanks].
Proof.
  intros Hs Hne Hfresh Hnano Hv r1 r2.
  assert (H1 : r1 = mkResult
            (mkSession await_payment (Some nano) (ps_showId sess)
                       (ps_seatIds sess))
            (mkStore (shows st)
               (mark to_hold (selection sess) (seats st))
               (orders st ++
                [mkOrder nano from (ps_showId sess) (selection sess)
                         (Z.of_nat (List.length (selection sess)) * TICKET_PRICE)
                         PPending None now]))
            [PhotoQr nano
               (Z.of_nat (List.length (selection sess)) * TICKET_PRICE);
             AnswerSilent]).
  { subst r1. unfold cb_done. rewrite Hs.
    destruct (selection sess) eqn:E; [congruence|]. reflexivity. }
  set (o := mkOrder nano from (ps_showId sess) (selection sess)
                    (Z.of_nat (List.length (selection sess)) * TICKET_PRICE)
                    PPending None now) in *.
  assert (Hp : order_is (Some nano) o = true) by (apply String.eqb_refl).
  assert (Ht : truthy_id (Some nano) = true)
    by (destruct nano; [congruence | reflexivity]).
  subst r2. rewrite H1. cbn [r_session r_store stage].
  split; [reflexivity|].
  unfold on_text. cbn [stage ps_orderId Stage_eqb negb orb].
  rewrite Ht, Hv. cbn [negb orders].
  unfold find_order. rewrite (find_last _ _ _ o Hfresh Hp).
  cbn [r_store r_session r_out orders seats].
  rewrite (update_first_last _ _ _ _ o Hfresh Hp).
  rewrite (update_first_last _ _ _ _ _ Hfresh)
    by (apply String.eqb_refl).
  split; [reflexivity|]. split; [|split; reflexivity].
  intros id s Hin Hf. cbn [o_seatIds o].
  rewrite mark_compose
    by (exact to_hold_idem || exact to_paid_idem || intros x; reflexivity).
  rewrite find_seat_mark_in by ((intros x; reflexivity) || exact Hin).
  rewrite Hf. reflexivity.
Qed.

(** ** The first keyboard *)

(** X3. On first start every seat is on sale: the keyboard of each show of the
    catalog is five rows of five buttons, the buttons are those of seats 1
    to 25 in order, each for that show, and each shows its seat number, none
    the cross. *)
Theorem boot_keyboard_all_numbers shs sh :
  In sh shs ->
  List.concat (seat_keyboard (sh_id sh) (boot shs))
  = map (fun n => mkButton (Some n) (sh_id sh) n) (map Z.of_nat (seq 1 25))
  /\ map (@List.length Button) (seat_keyboard (sh_id sh) (boot shs))
     = [5; 5; 5; 5; 5]%nat.
Proof.
  intros Hsh. split; [|reflexivity].
  rewrite seat_keyboard_buttons. apply map_ext_in. intros n Hn.
  apply seat_numbers_range in Hn.
  rewrite seat_label_lookup, boot_find_seat.
  assert (E : existsb (fun sh0 => Z.eqb (sh_id sh0) (sh_id sh)) shs = true)
    by (apply existsb_exists; exists sh; split; [exact Hsh | apply Z.eqb_refl]).
  rewrite E. destruct Hn as [H1 H2].
  apply Z.leb_le in H1, H2. rewrite H1, H2. reflexivity.
Qed.

(** ** Opening a show *)

(** X5. Opening a show of the catalog starts a fresh selection: the session is
    picking for that show with nothing selected, whatever it held before,
    and the store is untouched; so a done pressed right after is refused
    ("choose seats first") and creates no order.  An unknown show id is
    answered silently and changes nothing. *)
Theorem show_starts_fresh_selection showId from nano now sess st :
  let r1 := cb_show showId sess st in
  let r2 := cb_done from nano now (r_session r1) (r_store r1) in
  (existsb (fun sh => Z.eqb (sh_id sh) showId) (shows st) = true ->
   r_session r1 = mkSession picking (ps_orderId sess) (Some showId) (Some [])
   /\ r_store r1 = st
   /\ r_out r1 = [PhotoSeatPlan showId]
   /\ r2 = mkResult (r_session r1) st [AnswerChooseFirst])
  /\ (existsb (fun sh => Z.eqb (sh_id sh) showId) (shows st) = false ->
      r1 = mkResult sess st [AnswerSilent]).
Proof.
  intros r1 r2. subst r2 r1. unfold cb_show.
  destruct (find (fun s => Z.eqb (sh_id s) showId) (shows st)) as [sh|] eqn:Hf.
  - split; [intros _ | intros Hn].
    + cbn [r_session r_store r_out]. repeat split.
    + exfalso. apply find_some in Hf. destruct Hf as [Hin Heq].
      assert (existsb (fun sh0 => Z.eqb (sh_id sh0) showId) (shows st) = true)
        by (apply existsb_exists; exists sh; auto).
      congruence.
  - split; [intros Hy | intros _; reflexivity].
    exfalso. apply existsb_exists in Hy. destruct Hy as (sh & Hin & Heq).
    pose proof (find_none _ _ Hf sh Hin) as Hno. cbn in Hno. congruence.
Qed.

(** ** Confirming an order whose seats are paid *)

(** C9 (amended). Confirming again is a no-op on an order that is paid with
    its proof and whose seats are paid, which is the state every successful
    confirmation leaves: on such a store [/paid <id> <proof>] from an
    operator and the same digits from the requester both leave the whole
    store (the order, its proof, every seat, every other order) as it is and
    answer with the success message, never with an error; and each of the
    two confirmations, from any store where the order exists, produces such
    a store. *)
Theorem confirm_again_on_paid_seats from text sess st utext usess p :
  isAdmin from = true ->
  nth_error (split_space text) 2 = Some p ->
  four_digits p = true ->
  stage usess = await_payment ->
  truthy_id (ps_orderId usess) = true ->
  ps_orderId usess = nth_error (split_space text) 1 ->
  trim utext = p ->
  (confirmed_with (ps_orderId usess) p st ->
   cmd_paid from text sess st
   = mkResult sess st [ReplyMarkedPaid (ps_orderId usess)]
   /\ on_text utext usess st = mkResult initialSession st [ReplyThanks])
  /\ (forall o, find_order (ps_orderId usess) (orders st) = Some o ->
        confirmed_with (ps_orderId usess) p
                       (r_store (cmd_paid from text sess st))
        /\ confirmed_with (ps_orderId usess) p
                          (r_store (on_text utext usess st))).
Proof.
  intros Hadm Hl Hv Hs Ht Hid Htrim.
  assert (Hv' : four_digits (trim utext) = true) by (rewrite Htrim; exact Hv).
  split.
  - intros Hc. split.
    + rewrite Hid. apply cmd_paid_again with (p := p); try assumption.
      rewrite <- Hid. exact Hc.
    + apply on_text_again; try assumption. rewrite Htrim. exact Hc.
  - intros o Ho. split.
    + rewrite Hid.
      apply (cmd_paid_confirms from text sess st o p Hadm Hl Hv).
      rewrite <- Hid. exact Ho.
    + rewrite <- Htrim.
      exact (proj1 (on_text_confirms utext usess st o Hs Ht Hv' Ho)).
Qed.

End Handlers.

(** * The handlers on the sample data *)

Local Open Scope string_scope.

(** ** Finalize *)

(** C1 as stated fails.  Requester 2 selected seat 101 while it was free;
    requester 1 then held and paid it.  The done handler of requester 2 does
    not fail: it turns the paid seat back to hold and pushes a second order
    for the same seat. *)
Lemma done_holds_seat_sold_meanwhile :
  let w := run demo_admins no_trim (boot_world default_shows)
               trace_two_pickers in
  let sess := get_session 2 (w_sessions w) in
  let r := cb_done 2 "BBBBBB" 2000 sess (w_store w) in
  stage sess = picking /\
  selection sess = [101] /\
  option_map s_status (find_seat 101 (seats (w_store w))) = Some SPaid /\
  option_map s_status (find_seat 101 (seats (r_store r))) = Some SHold /\
  orders (r_store r)
  = (orders (w_store w)
     ++ [mkOrder "BBBBBB" 2 (Some 1) [101] 600 PPending None 2000])%list /\
  r_out r = [PhotoQr "BBBBBB" 600; AnswerSilent].
Proof. vm_compute. repeat split. Qed.

Lemma done_holds_free_selection_witness :
  let sess := demo_picking [101; 102] in
  let st := boot default_shows in
  let r := cb_done 1 "AAAAAA" 1000 sess st in
  stage sess = picking /\
  selection sess <> [] /\
  (forall id, In id (selection sess) ->
     exists s, find_seat id (seats st) = Some s /\ s_status s = SFree) /\
  orders (r_store r)
  = [mkOrder "AAAAAA" 1 (Some 1) [101; 102] 1200 PPending None 1000] /\
  find_seat 102 (seats (r_store r)) = Some (mkSeat 102 2 1 SHold None).
Proof.
  intros sess st r.
  assert (H1 : stage sess = picking) by reflexivity.
  assert (H2 : selection sess <> []) by discriminate.
  assert (H3 : forall id, In id (selection sess) ->
             exists s, find_seat id (seats st) = Some s /\ s_status s = SFree).
  { intros id [<-|[<-|[]]]; eexists; split; reflexivity. }
  pose proof (proj2 (done_holds_free_selection 1 "AAAAAA" 1000 sess st)
                H1 H2 H3) as (Hseat & _ & Hord & _).
  split; [exact H1|]. split; [exact H2|]. split; [exact H3|].
  split; [exact Hord|].
  exact (Hseat 102 (mkSeat 102 2 1 SFree None)
               (or_intror (or_introl eq_refl)) eq_refl).
Defined.

(** ** Seat pick *)

(** C10 as stated fails outside the picking stage: seat 99 of show 1 does
    not exist, and an idle session gets the empty answer, not the report
    that the seat is taken. *)
Lemma seat_pick_not_reported_when_idle :
  let r := cb_seat 1 99 initialSession (boot default_shows) in
  find (seat_at 1 99) (seats (boot default_shows)) = None /\
  r_out r = [AnswerSilent] /\
  ~ In AnswerTaken (r_out r).
Proof.
  vm_compute. repeat split. intros [H|[]]. discriminate H.
Qed.

Lemma seat_pick_rejects_unavailable_witness :
  let sess := demo_picking [103] in
  let r := cb_seat 1 1 sess demo_store in
  (forall seat, find (seat_at 1 1) (seats demo_store) = Some seat ->
                s_status seat <> SFree) /\
  r_store r = demo_store /\ r_session r = sess /\ r_out r = [AnswerTaken].
Proof.
  intros sess r.
  assert (H : forall seat, find (seat_at 1 1) (seats demo_store) = Some seat ->
                           s_status seat <> SFree).
  { intros seat E. vm_compute in E. injection E as <-. discriminate. }
  split; [exact H|].
  exact (seat_pick_rejects_unavailable 1 1 sess demo_store H).
Defined.

(** ** The back reference of a seat *)

(** C2 as stated fails: after a successful hold from the boot inventory,
    seat 101 is hold and listed by the new order, and its [orderId] is
    unset. *)
Lemma held_seat_has_no_orderId :
  let w := run demo_admins no_trim (boot_world default_shows) trace_hold in
  find_seat 101 (seats (w_store w)) = Some (mkSeat 101 1 1 SHold None) /\
  orders (w_store w)
  = [mkOrder "AAAAAA" 1 (Some 1) [101] 600 PPending None 1000].
Proof. vm_compute. split; reflexivity. Qed.

Lemma seat_orderId_never_written_witness :
  let sess := demo_picking [101] in
  let st := boot default_shows in
  stage sess = picking /\ selection sess <> [] /\
  Forall (fun s => s_orderId s = None)
         (seats (w_store (run demo_admins no_trim (boot_world default_shows)
                              trace_release_first))) /\
  exists o,
    orders (r_store (cb_done 1 "AAAAAA" 1000 sess st))
    = (orders st ++ [o])%list /\
    o_id o = "AAAAAA".
Proof.
  intros sess st.
  assert (H1 : stage sess = picking) by reflexivity.
  assert (H2 : selection sess <> []) by discriminate.
  destruct (seat_orderId_never_written demo_admins no_trim) as (_ & Hrun & Hdone).
  split; [exact H1|]. split; [exact H2|]. split.
  - exact (Hrun default_shows trace_release_first).
  - destruct (Hdone 1 "AAAAAA" 1000 sess st H1 H2) as (o & Ho & Hid & _).
    exists o. split; assumption.
Defined.

(** ** Free to paid *)



(** ** Show of the selected seats *)



(** ** Payment confirmation *)

Lemma confirm_payment_idempotent_witness :
  let st := w_store (run demo_admins no_trim (boot_world default_shows)
                         trace_hold) in
  let usess := mkSession await_payment (Some "AAAAAA") (Some 1) (Some [101]) in
  let a := cmd_paid demo_admins 900 "/paid AAAAAA 1234" initialSession st in
  let u := on_text no_trim "1234" usess st in
  isAdmin demo_admins 900 = true /\
  four_digits "1234" = true /\
  find_order (ps_orderId usess) (orders st)
  = Some (mkOrder "AAAAAA" 1 (Some 1) [101] 600 PPending None 1000) /\
  cmd_paid demo_admins 900 "/paid AAAAAA 1234" (r_session a) (r_store a)
  = mkResult (r_session a) (r_store a) [ReplyMarkedPaid (Some "AAAAAA")] /\
  on_text no_trim "1234" usess (r_store u)
  = mkResult initialSession (r_store u) [ReplyThanks].
Proof.
  intros st usess a u.
  assert (H1 : isAdmin demo_admins 900 = true) by reflexivity.
  assert (H2 : four_digits "1234" = true) by reflexivity.
  assert (H3 : find_order (ps_orderId usess) (orders st)
               = Some (mkOrder "AAAAAA" 1 (Some 1) [101] 600 PPending None 1000))
    by reflexivity.
  pose proof (confirm_payment_idempotent demo_admins no_trim 900
                "/paid AAAAAA 1234" initialSession st "1234" usess "1234" _
                H1 eq_refl H2 eq_refl eq_refl eq_refl eq_refl H3)
    as (Ha & _ & Hu & _).
  split; [exact H1|]. split; [exact H2|]. split; [exact H3|].
  split; [exact Ha | exact Hu].
Defined.

(** C6. [/paid AAAAAA 12] from an operator, on a pending order: the proof
    is malformed and the reply asks for four digits, yet the order is now
    paid in memory, with no proof recorded and its seat still hold. *)
Theorem paid_command_malformed_proof_marks_paid :
  let st := w_store (run demo_admins no_trim (boot_world default_shows)
                         trace_hold) in
  let r := cmd_paid demo_admins 900 "/paid AAAAAA 12" initialSession st in
  valid_last4 (nth_error (split_space "/paid AAAAAA 12") 2) = false /\
  option_map o_payStatus (find_order (Some "AAAAAA") (orders st))
  = Some PPending /\
  r_out r = [ReplyNeedLast4] /\
  option_map o_payStatus (find_order (Some "AAAAAA") (orders (r_store r)))
  = Some PPaid /\
  option_map o_last4 (find_order (Some "AAAAAA") (orders (r_store r)))
  = Some None /\
  option_map s_status (find_seat 101 (seats (r_store r))) = Some SHold.
Proof. vm_compute. repeat split. Qed.

(** ** Cancel and release *)

Lemma admin_cancel_spares_paid_witness :
  let r := cb_admin_cancel demo_admins 900 "AAAAAA" initialSession
                           demo_store in
  isAdmin demo_admins 900 = true /\
  find_order (Some "AAAAAA") (orders demo_store) = Some demo_order /\
  find_seat 101 (seats (r_store r)) = Some (mkSeat 101 1 1 SPaid None) /\
  find_seat 102 (seats (r_store r)) = Some (mkSeat 102 2 1 SFree None) /\
  removed_from (Some "AAAAAA") demo_order
               (orders demo_store) (orders (r_store r)).
Proof.
  intros r.
  assert (H1 : isAdmin demo_admins 900 = true) by reflexivity.
  assert (H2 : find_order (Some "AAAAAA") (orders demo_store) = Some demo_order)
    by reflexivity.
  pose proof (proj2 (proj2 (admin_cancel_spares_paid demo_admins 900 "AAAAAA"
                              initialSession demo_store)) H1 demo_order H2)
    as (Hseat & Hord).
  split; [exact H1|]. split; [exact H2|].
  split; [exact (Hseat 101 (mkSeat 101 1 1 SPaid None)
                       (or_introl eq_refl) eq_refl)|].
  split; [exact (Hseat 102 (mkSeat 102 2 1 SHold None)
                       (or_intror (or_introl eq_refl)) eq_refl)|].
  exact Hord.
Defined.

Lemma free_command_force_release_witness :
  let r := cmd_free demo_admins 900 "/free AAAAAA" initialSession demo_store in
  isAdmin demo_admins 900 = true /\
  find_seat 101 (seats (r_store r)) = Some (mkSeat 101 1 1 SFree None) /\
  find_seat 102 (seats (r_store r)) = Some (mkSeat 102 2 1 SFree None) /\
  removed_from (Some "AAAAAA") demo_order
               (orders demo_store) (orders (r_store r)) /\
  cmd_free demo_admins 900 "/free ZZZZZZ" initialSession demo_store
  = mkResult initialSession demo_store [ReplyOrderNotFound].
Proof.
  intros r.
  assert (H1 : isAdmin demo_admins 900 = true) by reflexivity.
  pose proof (free_command_force_release demo_admins 900 "/free AAAAAA"
                initialSession demo_store H1) as (Hseat & _ & Hord & _).
  pose proof (free_command_force_release demo_admins 900 "/free ZZZZZZ"
                initialSession demo_store H1) as Hnone.
  split; [exact H1|].
  split; [exact (Hseat 101 (mkSeat 101 1 1 SPaid None)
                       (or_introl eq_refl) eq_refl)|].
  split; [exact (Hseat 102 (mkSeat 102 2 1 SHold None)
                       (or_intror (or_introl eq_refl)) eq_refl)|].
  split; [exact Hord | exact Hnone].
Defined.

(** ** Expiry *)

Lemma expire_stale_holds_exact_witness :
  let r := fst (expireStaleHolds 5000 1000 demo_store) in
  stale 5000 1000 demo_order = true /\
  find_seat 101 (seats r) = Some (mkSeat 101 1 1 SPaid None) /\
  find_seat 102 (seats r) = Some (mkSeat 102 2 1 SFree None) /\
  expireStaleHolds 5000 1000 r = (r, 0%nat).
Proof.
  intros r.
  assert (H1 : stale 5000 1000 demo_order = true) by reflexivity.
  pose proof (expire_stale_holds_exact 5000 1000 demo_store)
    as (_ & _ & _ & _ & _ & Hseat & _ & Hagain).
  split; [exact H1|].
  split; [exact (Hseat demo_order 101 (mkSeat 101 1 1 SPaid None)
                       (or_introl eq_refl) H1 (or_introl eq_refl) eq_refl)|].
  split; [exact (Hseat demo_order 102 (mkSeat 102 2 1 SHold None)
                       (or_introl eq_refl) H1
                       (or_intror (or_introl eq_refl)) eq_refl)|].
  exact Hagain.
Defined.

(** * More of the bot on the sample data *)

Lemma paid_command_text_confirms_witness :
  let st := w_store (run demo_admins no_trim (boot_world default_shows)
                         trace_hold) in
  let r := cmd_paid demo_admins 900 "/paid AAAAAA 1234" initialSession st in
  isAdmin demo_admins 900 = true /\
  no_space "AAAAAA" = true /\
  four_digits "1234" = true /\
  find_order (Some "AAAAAA") (orders st)
  = Some (mkOrder "AAAAAA" 1 (Some 1) [101] 600 PPending None 1000) /\
  confirmed_with (Some "AAAAAA") "1234" (r_store r) /\
  r_out r = [ReplyMarkedPaid (Some "AAAAAA")].
Proof.
  intros st r.
  assert (H1 : isAdmin demo_admins 900 = true) by reflexivity.
  assert (H2 : no_space "AAAAAA" = true) by reflexivity.
  assert (H3 : four_digits "1234" = true) by reflexivity.
  assert (H4 : find_order (Some "AAAAAA") (orders st)
               = Some (mkOrder "AAAAAA" 1 (Some 1) [101] 600 PPending None 1000))
    by reflexivity.
  pose proof (paid_command_text_confirms demo_admins 900 "AAAAAA" "1234"
                initialSession st _ H1 H2 H3 H4) as (Hc & _ & Ho).
  split; [exact H1|]. split; [exact H2|]. split; [exact H3|].
  split; [exact H4|]. split; [exact Hc | exact Ho].
Defined.

Lemma bare_command_not_found_witness :
  isAdmin demo_admins 900 = true /\
  no_space "/free" = true /\
  cmd_free demo_admins 900 "/free" initialSession demo_store
  = mkResult initialSession demo_store [ReplyOrderNotFound].
Proof.
  assert (H1 : isAdmin demo_admins 900 = true) by reflexivity.
  assert (H2 : no_space "/free" = true) by reflexivity.
  split; [exact H1|]. split; [exact H2|].
  exact (proj2 (bare_command_not_found demo_admins 900 "/free" initialSession
                  demo_store H1 H2)).
Defined.

Lemma seat_pick_twice_toggles_off_witness :
  let sess := demo_picking [101] in
  let r1 := cb_seat 1 3 sess demo_store in
  let r2 := cb_seat 1 3 (r_session r1) (r_store r1) in
  stage sess = picking /\
  find (seat_at 1 3) (seats demo_store) = Some (mkSeat 103 3 1 SFree None) /\
  ~ In 103 (selection sess) /\
  selection (r_session r1) = [101; 103] /\
  selection (r_session r2) = [101] /\
  r_store r2 = demo_store.
Proof.
  intros sess r1 r2.
  assert (H1 : stage sess = picking) by reflexivity.
  assert (H2 : find (seat_at 1 3) (seats demo_store)
               = Some (mkSeat 103 3 1 SFree None)) by reflexivity.
  assert (H3 : ~ In 103 (selection sess)).
  { intros [H|[]]. discriminate H. }
  pose proof (seat_pick_twice_toggles_off 1 3 sess demo_store _ H1 H2 eq_refl)
    as (Hst & _ & Hnew).
  destruct (Hnew H3) as (E1 & E2 & _).
  split; [exact H1|]. split; [exact H2|]. split; [exact H3|].
  split; [exact E1|]. split; [exact E2 | exact Hst].
Defined.

Lemma ids_exact_default_shows : ids_exact default_shows.
Proof.
  unfold ids_exact, default_shows.
  constructor; [cbn; lia|]. constructor; [cbn; lia|]. constructor.
Defined.

Lemma boot_seat_lookup_witness :
  ids_exact default_shows /\
  find (seat_at 2 7) (seats (boot default_shows))
  = Some (mkSeat 207 7 2 SFree None) /\
  find (seat_at 2 26) (seats (boot default_shows)) = None /\
  find (seat_at 3 7) (seats (boot default_shows)) = None /\
  List.length (seats (boot default_shows)) = 50%nat.
Proof.
  pose proof ids_exact_default_shows as H.
  split; [exact H|].
  split; [exact (proj1 (boot_seat_lookup default_shows 2 7 H))|].
  split; [exact (proj1 (boot_seat_lookup default_shows 2 26 H))|].
  split; [exact (proj1 (boot_seat_lookup default_shows 3 7 H))|].
  exact (proj1 (proj2 (boot_seat_lookup default_shows 2 7 H))).
Defined.

Lemma boot_seat_ids_unique_witness :
  ids_exact default_shows /\
  NoDup (map sh_id default_shows) /\
  NoDup (map s_id (seats (boot default_shows))).
Proof.
  pose proof ids_exact_default_shows as H0.
  assert (H : NoDup (map sh_id default_shows)).
  { constructor; [intros [H|[]]; discriminate H|].
    constructor; [intros []|]. constructor. }
  split; [exact H0|].
  split; [exact H | exact (boot_seat_ids_unique default_shows H0 H)].
Defined.

Lemma keyboard_agrees_with_pick_witness :
  let sess := demo_picking [] in
  stage sess = picking /\
  map b_seatNo (List.concat (seat_keyboard 1 demo_store))
  = map Z.of_nat (seq 1 25).
Proof.
  intros sess.
  assert (H : stage sess = picking) by reflexivity.
  split; [exact H|].
  exact (proj1 (keyboard_agrees_with_pick 1 sess demo_store H)).
Defined.

Lemma operator_updates_need_admin_witness :
  isAdmin demo_admins 5 = false /\
  is_operator_update (CmdFree "/free AAAAAA") = true /\
  handle demo_admins no_trim (CmdFree "/free AAAAAA") 5 initialSession
         demo_store
  = mkResult initialSession demo_store [].
Proof.
  assert (H1 : isAdmin demo_admins 5 = false) by reflexivity.
  assert (H2 : is_operator_update (CmdFree "/free AAAAAA") = true)
    by reflexivity.
  split; [exact H1|]. split; [exact H2|].
  exact (operator_updates_need_admin demo_admins no_trim _ 5 initialSession
           demo_store H1 H2).
Defined.

Lemma browsing_keeps_store_witness :
  is_browsing (CbSeat 1 3) = true /\
  r_store (handle demo_admins no_trim (CbSeat 1 3) 1 (demo_picking [])
                  demo_store)
  = demo_store.
Proof.
  assert (H : is_browsing (CbSeat 1 3) = true) by reflexivity.
  split; [exact H|].
  exact (browsing_keeps_store demo_admins no_trim _ 1 (demo_picking [])
           demo_store H).
Defined.

Lemma orders_only_paid_or_removed_witness :
  let r := handle demo_admins no_trim (CbAdminPaid "AAAAAA") 900
                  initialSession demo_store in
  is_removal (CbAdminPaid "AAAAAA") = false /\
  exists kept extra,
    orders (r_store r) = (kept ++ extra)%list /\
    Forall2 same_order_paid_later (orders demo_store) kept /\
    (extra = [] \/ exists nano now, extra =
       [mkOrder nano 900 (ps_showId initialSession) (selection initialSession)
                (Z.of_nat (List.length (selection initialSession)) * 600)
                PPending None now]).
Proof.
  intros r.
  assert (H : is_removal (CbAdminPaid "AAAAAA") = false) by reflexivity.
  split; [exact H|].
  exact (proj1 (orders_only_paid_or_removed demo_admins no_trim
                  (CbAdminPaid "AAAAAA") 900 initialSession demo_store) H).
Defined.

Lemma hold_then_release_restores_witness :
  let sess := demo_picking [101; 102] in
  let st := boot default_shows in
  let held := r_store (cb_done 1 "AAAAAA" 1000 sess st) in
  stage sess = picking /\
  selection sess <> [] /\
  find_order (Some "AAAAAA") (orders st) = None /\
  no_space "AAAAAA" = true /\
  isAdmin demo_admins 900 = true /\
  cmd_free demo_admins 900 "/free AAAAAA" initialSession held
  = mkResult initialSession st [ReplyFreed (Some "AAAAAA")] /\
  cb_admin_cancel demo_admins 900 "AAAAAA" initialSession held
  = mkResult initialSession st [AnswerCancelled "AAAAAA"; EditCancelled "AAAAAA"].
Proof.
  intros sess st held.
  assert (H1 : stage sess = picking) by reflexivity.
  assert (H2 : selection sess <> []) by discriminate.
  assert (H3 : forall id s, In id (selection sess) ->
             find_seat id (seats st) = Some s -> s_status s = SFree).
  { intros id s [<-|[<-|[]]] E; vm_compute in E; injection E as <-;
      reflexivity. }
  assert (H4 : find_order (Some "AAAAAA") (orders st) = None) by reflexivity.
  assert (H5 : no_space "AAAAAA" = true) by reflexivity.
  assert (H6 : isAdmin demo_admins 900 = true) by reflexivity.
  pose proof (hold_then_release_restores demo_admins 1 900 "AAAAAA" 1000 sess
                initialSession st H1 H2 H3 H4 H5 H6) as (Hfree & Hcancel).
  split; [exact H1|]. split; [exact H2|]. split; [exact H4|].
  split; [exact H5|]. split; [exact H6|]. split; [exact Hfree | exact Hcancel].
Defined.

Lemma admin_paid_button_marks_paid_witness :
  let r := cb_admin_paid demo_admins 900 "AAAAAA" initialSession demo_store in
  isAdmin demo_admins 900 = true /\
  find_order (Some "AAAAAA") (orders (r_store r))
  = Some (mkOrder "AAAAAA" 1 (Some 1) [101; 102] 1200 PPaid None 1000) /\
  find_seat 102 (seats (r_store r)) = Some (mkSeat 102 2 1 SPaid None) /\
  cb_admin_paid demo_admins 900 "ZZZZZZ" initialSession demo_store
  = mkResult initialSession demo_store [AlertOrderNotFound].
Proof.
  intros r.
  assert (H1 : isAdmin demo_admins 900 = true) by reflexivity.
  pose proof (admin_paid_button_marks_paid demo_admins 900 "AAAAAA"
                initialSession demo_store H1) as (Ho & _ & Hs & _).
  pose proof (admin_paid_button_marks_paid demo_admins 900 "ZZZZZZ"
                initialSession demo_store H1) as Hnone.
  split; [exact H1|]. split; [exact Ho|].
  split; [exact (Hs 102 (mkSeat 102 2 1 SHold None)
                    (or_intror (or_introl eq_refl)) eq_refl)|].
  exact Hnone.
Defined.

Lemma orders_command_lists_newest_pending_witness :
  isAdmin demo_admins 900 = true /\
  r_store (cmd_orders demo_admins 900 initialSession demo_store) = demo_store /\
  r_out (cmd_orders demo_admins 900 initialSession demo_store)
  = [ReplyPending 1].
Proof.
  assert (H1 : isAdmin demo_admins 900 = true) by reflexivity.
  pose proof (orders_command_lists_newest_pending demo_admins 900
                initialSession demo_store) as (_ & _ & _ & H).
  split; [exact H1|]. exact (H H1).
Defined.

Lemma order_chunks_cover_witness :
  (List.length [demo_order] <= 30)%nat /\
  List.concat (order_chunks [demo_order]) = [demo_order] /\
  (List.length (order_chunks [demo_order]) <= 4)%nat.
Proof.
  assert (H : (List.length [demo_order] <= 30)%nat) by (simpl; lia).
  pose proof (order_chunks_cover [demo_order]) as (Hc & _ & _ & Hn).
  split; [exact H|]. split; [exact Hc | exact (Hn H)].
Defined.

Lemma seatsLabel_sorted_seat_numbers_witness :
  (forall id, In id (o_seatIds demo_order) ->
              find_seat id (seats demo_store) <> None) /\
  LocallySorted Z.le (seatsLabel (seats demo_store) demo_order) /\
  List.length (seatsLabel (seats demo_store) demo_order) = 2%nat.
Proof.
  assert (H : forall id, In id (o_seatIds demo_order) ->
                         find_seat id (seats demo_store) <> None).
  { intros id [<-|[<-|[]]]; discriminate. }
  pose proof (seatsLabel_sorted_seat_numbers (seats demo_store) demo_order)
    as (Hs & _ & _ & Hl).
  split; [exact H|]. split; [exact Hs | exact (Hl H)].
Defined.

Lemma reachable_orders_well_formed_witness :
  let st := w_store (run demo_admins no_trim (boot_world default_shows)
                         trace_release_first) in
  let o := mkOrder "BBBBBB" 2 (Some 1) [101] 600 PPending None 2000 in
  In o (orders st) /\
  NoDup (o_seatIds o) /\
  o_amount o = Z.of_nat (List.length (o_seatIds o)) * TICKET_PRICE.
Proof.
  intros st o.
  assert (H : In o (orders st)) by (left; reflexivity).
  pose proof (reachable_orders_well_formed demo_admins no_trim default_shows
                trace_release_first o H) as (_ & H2 & H3 & _).
  split; [exact H|]. split; [exact H2 | exact H3].
Defined.

Lemma reachable_proof_only_on_paid_witness :
  let st := w_store (run demo_admins no_trim (boot_world default_shows)
                         trace_two_pickers) in
  let o := mkOrder "AAAAAA" 1 (Some 1) [101] 600 PPaid (Some "1234") 1000 in
  In o (orders st) /\
  o_last4 o = Some "1234" /\
  o_payStatus o = PPaid /\ four_digits "1234" = true.
Proof.
  intros st o.
  assert (H1 : In o (orders st)) by (left; reflexivity).
  assert (H2 : o_last4 o = Some "1234") by reflexivity.
  split; [exact H1|]. split; [exact H2|].
  exact (reachable_proof_only_on_paid demo_admins no_trim default_shows
           trace_two_pickers o "1234" H1 H2).
Defined.

Lemma reachable_holds_are_listed_witness :
  let st := w_store (run demo_admins no_trim (boot_world default_shows)
                         trace_hold) in
  let s := mkSeat 101 1 1 SHold None in
  In s (seats st) /\
  s_status s = SHold /\
  exists o, In o (orders st) /\ In (s_id s) (o_seatIds o).
Proof.
  intros st s.
  assert (H1 : In s (seats st)) by (left; reflexivity).
  assert (H2 : s_status s = SHold) by reflexivity.
  split; [exact H1|]. split; [exact H2|].
  exact (reachable_holds_are_listed demo_admins no_trim default_shows
           trace_hold s H1 H2).
Defined.

Lemma reachable_sessions_well_formed_witness :
  let w := run demo_admins no_trim (boot_world default_shows)
               trace_two_pickers in
  let sess := get_session 2 (w_sessions w) in
  stage sess = picking /\
  NoDup (selection sess) /\
  exists sh, In sh (shows (w_store w)) /\ ps_showId sess = Some (sh_id sh).
Proof.
  intros w sess.
  assert (H : stage sess = picking) by reflexivity.
  pose proof (reachable_sessions_well_formed demo_admins no_trim default_shows
                trace_two_pickers 2) as (H1 & _ & H3).
  split; [exact H|]. split; [exact H1 | exact (H3 H)].
Defined.

Lemma paid_seat_kept_by_other_updates_witness :
  Forall2 (fun s s' => s_status s = SPaid -> s' = s)
          (seats demo_store)
          (seats (r_store (handle demo_admins no_trim (CbAdminCancel "AAAAAA")
                                  900 initialSession demo_store))).
Proof.
  exact (paid_seat_kept_by_other_updates demo_admins no_trim
           (CbAdminCancel "AAAAAA") 900 initialSession demo_store I).
Defined.

Lemma hold_then_digits_sells_witness :
  let sess := demo_picking [101] in
  let st := boot default_shows in
  let r1 := cb_done 1 "AAAAAA" 1000 sess st in
  let r2 := on_text no_trim "1234" (r_session r1) (r_store r1) in
  stage sess = picking /\
  selection sess <> [] /\
  find_order (Some "AAAAAA") (orders st) = None /\
  four_digits (no_trim "1234") = true /\
  orders (r_store r2)
  = [mkOrder "AAAAAA" 1 (Some 1) [101] 600 PPaid (Some "1234") 1000] /\
  r_session r2 = initialSession.
Proof.
  intros sess st r1 r2.
  assert (H1 : stage sess = picking) by reflexivity.
  assert (H2 : selection sess <> []) by discriminate.
  assert (H3 : find_order (Some "AAAAAA") (orders st) = None) by reflexivity.
  assert (H4 : "AAAAAA" <> EmptyString) by discriminate.
  assert (H5 : four_digits (no_trim "1234") = true) by reflexivity.
  pose proof (hold_then_digits_sells no_trim 1 "AAAAAA" 1000 "1234" sess st
                H1 H2 H3 H4 H5) as (_ & Ho & _ & Hs & _).
  split; [exact H1|]. split; [exact H2|]. split; [exact H3|].
  split; [exact H5|]. split; [exact Ho | exact Hs].
Defined.

Lemma boot_keyboard_all_numbers_witness :
  let sh := mkShow 2 "2025-08-10 21:00" "Interstellar" in
  In sh default_shows /\
  List.concat (seat_keyboard 2 (boot default_shows))
  = map (fun n => mkButton (Some n) 2 n) (map Z.of_nat (seq 1 25)).
Proof.
  intros sh.
  assert (H1 : In sh default_shows) by (right; left; reflexivity).
  split; [exact H1|].
  exact (proj1 (boot_keyboard_all_numbers default_shows sh H1)).
Defined.

Lemma show_starts_fresh_selection_witness :
  let sess := demo_picking [101; 102] in
  let r1 := cb_show 2 sess demo_store in
  existsb (fun sh => Z.eqb (sh_id sh) 2) (shows demo_store) = true /\
  selection (r_session r1) = [] /\
  cb_done 1 "AAAAAA" 1000 (r_session r1) (r_store r1)
  = mkResult (r_session r1) demo_store [AnswerChooseFirst].
Proof.
  intros sess r1.
  assert (H : existsb (fun sh => Z.eqb (sh_id sh) 2) (shows demo_store) = true)
    by reflexivity.
  pose proof (proj1 (show_starts_fresh_selection 2 1 "AAAAAA" 1000 sess
                       demo_store) H) as (_ & _ & _ & Hd).
  split; [exact H|]. split; [reflexivity | exact Hd].
Defined.


(** ** Confirming again *)

(** C9 as stated fails.  Order AAAAAA is paid with proof 1234; requester 2,
    who had selected the same seat while it was free, then finalizes, which
    puts seat 101 back on hold.  Confirming AAAAAA again with the same proof
    is accepted and changes the status of its seat from hold to paid. *)
Lemma confirm_again_changes_reheld_seat :
  let w := run demo_admins no_trim (boot_world default_shows)
               (trace_two_pickers ++ [ev 2 (CbDone 1 "BBBBBB" 2000)]) in
  let r := cmd_paid demo_admins 900 "/paid AAAAAA 1234" initialSession
                    (w_store w) in
  find_order (Some "AAAAAA") (orders (w_store w))
  = Some (mkOrder "AAAAAA" 1 (Some 1) [101] 600 PPaid (Some "1234") 1000) /\
  option_map s_status (find_seat 101 (seats (w_store w))) = Some SHold /\
  option_map s_status (find_seat 101 (seats (r_store r))) = Some SPaid /\
  r_out r = [ReplyMarkedPaid (Some "AAAAAA")].
Proof. vm_compute. repeat split. Qed.

Lemma confirm_again_on_paid_seats_witness :
  let st := w_store (run demo_admins no_trim (boot_world default_shows)
                         trace_two_pickers) in
  let usess := mkSession await_payment (Some "AAAAAA") (Some 1) (Some [101]) in
  isAdmin demo_admins 900 = true /\
  four_digits "1234" = true /\
  confirmed_with (Some "AAAAAA") "1234" st /\
  cmd_paid demo_admins 900 "/paid AAAAAA 1234" initialSession st
  = mkResult initialSession st [ReplyMarkedPaid (Some "AAAAAA")] /\
  on_text no_trim "1234" usess st = mkResult initialSession st [ReplyThanks].
Proof.
  intros st usess.
  assert (H1 : isAdmin demo_admins 900 = true) by reflexivity.
  assert (H2 : four_digits "1234" = true) by reflexivity.
  assert (H3 : confirmed_with (Some "AAAAAA") "1234" st).
  { exists (mkOrder "AAAAAA" 1 (Some 1) [101] 600 PPaid (Some "1234") 1000).
    split; [reflexivity|]. split; [reflexivity|]. split; [reflexivity|].
    intros id s [<-|[]] E. vm_compute in E. injection E as <-. reflexivity. }
  pose proof (proj1 (confirm_again_on_paid_seats demo_admins no_trim 900
                       "/paid AAAAAA 1234" initialSession st "1234" usess
                       "1234" H1 eq_refl H2 eq_refl eq_refl eq_refl eq_refl)
                    H3) as (Ha & Hu).
  split; [exact H1|]. split; [exact H2|]. split; [exact H3|].
  split; [exact Ha | exact Hu].
Defined.
